(** * Applied machine learning notebooks: a shallow embedding

    The repository is a collection of tutorial notebooks.  Every notebook is
    a straight-line script that hands in-memory arrays or data frames to
    NumPy, SciPy, Keras or R's caret/randomForest.  This development embeds

    - the covariance cells of the NumPy notebook on expected value, variance
      and covariance (Linear-Algebra/..._with_NumPy-checkpoint.ipynb),
    - the training listing of the Keras text-generation notebook, which is
      stored in the same file after a document separator,
    - the cells and complete examples of the rank-correlation notebook
      (unnamed/part_000),
    - the three recipes of
      Machine-Learning-R/save_and_finalize_ml_model_in_R.Rmd.

    The scripts are translated statement by statement into a monad of state
    and exceptions.  The library routines they call are not part of the
    repository.  The numerical ones (mean, var, cov, corrcoef, rankdata,
    spearmanr) are written out over the real numbers, following the
    algorithm the library uses, and are compared with the formulas that the
    notebooks quote in their text cells; rounding is outside that model.
    The elementwise construction of the test dataset is written out a second
    time in binary64, where it can be evaluated as NumPy evaluates it.  The
    other routines (random generators, p-values, model fitting,
    serialization, number formatting) are fields of interface classes and
    are constrained only by the hypotheses that individual theorems state. *)

From Stdlib Require Import Floats.
From Stdlib Require Import Reals Lra Lia Ascii String.
From stdpp Require Import gmap strings list pretty sorting.

(** ** Exceptions and the script monad *)

(** The exceptions that reach the top level of a script, Python's by their
    class and R's condition as [simpleError].  The argument names the
    library routine that raised it. *)
Inductive exception : Type :=
  | ValueError (raised_by : string)
  | IOError (raised_by : string)
  | KeyError (raised_by : string)
  | IndexError (raised_by : string)
  | simpleError (raised_by : string).

Definition outcome (A : Type) : Type := exception + A.

#[global] Instance outcome_ret : MRet outcome := λ A a, inr a.
#[global] Instance outcome_bind : MBind outcome :=
  λ A B k o, match o with inl e => inl e | inr a => k a end.

(** A script statement reads and updates the interpreter state and either
    yields a value or raises.  The state reached so far is kept when an
    exception is raised, as in an interactive session. *)
Definition script (St A : Type) : Type := St → outcome A * St.

Definition ret {St A : Type} (a : A) : script St A := λ s, (inr a, s).

Definition bind {St A B : Type} (c : script St A) (k : A → script St B)
  : script St B :=
  λ s, match c s with
       | (inl e, s') => (inl e, s')
       | (inr a, s') => k a s'
       end.

#[global] Instance script_ret {St : Type} : MRet (script St) := @ret St.
#[global] Instance script_bind {St : Type} : MBind (script St) :=
  λ A B k c, bind c k.

(** A library call that touches no interpreter state. *)
Definition call {St A : Type} (o : outcome A) : script St A := λ s, (o, s).

Definition modify {St : Type} (f : St → St) : script St unit :=
  λ s, (inr tt, f s).

(** Comparisons of reals, as used by [if p > alpha] and by ranking. *)
#[global] Instance Rlt_decision (a b : R) : Decision (a < b)%R := Rlt_dec a b.
#[global] Instance Rle_decision (a b : R) : Decision (a <= b)%R := Rle_dec a b.

(** ** NumPy routines used by the notebooks, over the reals *)

Module numpy.
Local Open Scope R_scope.

Definition sum (v : list R) : R := foldr Rplus 0 v.

(** [mean(v)] *)
Definition mean (v : list R) : R := sum v / INR (length v).

(** [var(v, ddof=k)]: the divisor is [max(N - k, 0)]. *)
Definition var (ddof : nat) (v : list R) : R :=
  sum (map (λ a, (a - mean v) * (a - mean v)) v) / INR (length v - ddof).

(** [std(v, ddof=k)] *)
Definition std (ddof : nat) (v : list R) : R := sqrt (var ddof v).

(** One entry of [dot(X, X.T)]: the inner product of two rows. *)
Definition inner (u v : list R) : R := sum (zip_with Rmult u v).

(** [X -= avg[:, None]] on one row. *)
Definition center (row : list R) : list R := map (λ a, a - mean row) row.

(** [cov(x, y)] with the defaults [rowvar=True], [bias=False], [ddof=None]:
    the two vectors are stacked as the rows of [X] (which fails when their
    lengths differ), every row is centred on its mean, and
    [c = dot(X, X.T) * (1 / fact)] with [fact = max(N - 1, 0)]. *)
Definition cov (x y : list R) : outcome (list (list R)) :=
  if decide (length x = length y) then
    let X := [center x; center y] in
    let fact := INR (length x - 1) in
    inr (map (λ r, map (λ s, inner r s * (1 / fact)) X) X)
  else inl (ValueError "numpy.concatenate").

(** [diag(c)] *)
Definition diag (c : list (list R)) : list R :=
  imap (λ i row, nth i row 0) c.

(** [clip(a, lo, hi)] is [minimum(maximum(a, lo), hi)]. *)
Definition clip (lo hi a : R) : R := Rmin (Rmax a lo) hi.

(** [corrcoef(x, y)]: the covariance matrix is divided by the standard
    deviations, first along the rows ([c /= stddev[:, None]]), then along the
    columns ([c /= stddev[None, :]]), and clipped to [-1, 1]. *)
Definition corrcoef (x y : list R) : outcome (list (list R)) :=
  match cov x y with
  | inl e => inl e
  | inr c =>
      let stddev := map sqrt (diag c) in
      let c1 := zip_with (λ row s, map (λ a, a / s) row) c stddev in
      let c2 := map (λ row, zip_with Rdiv row stddev) c1 in
      inr (map (map (clip (-1) 1)) c2)
  end.

(** [m[i, j]] for an index inside the matrix. *)
Definition entry (m : list (list R)) (i j : nat) : R := nth j (nth i m []) 0.

(** [a * c] for an array and a scalar. *)
Definition scale (a : list R) (c : R) : list R := map (λ v, v * c) a.

(** [a + b] for one-dimensional arrays: elementwise on equal lengths, an
    array of length one is broadcast, any other pair of shapes is refused. *)
Definition add (a b : list R) : outcome (list R) :=
  if decide (length a = length b) then inr (zip_with Rplus a b)
  else match a, b with
       | [u], _ => inr (map (λ v, u + v) b)
       | _, [v] => inr (map (λ u, u + v) a)
       | _, _ => inl (ValueError "numpy.add")
       end.

End numpy.

(** ** The formulas quoted by the NumPy notebook

    These follow the notebook's own text cells: the sample mean
    [sum(x1, ..., xn) . 1/n], the sample variance
    [sum (xi - mu)^2 . 1/(n - 1)], the sample covariance
    [sum (x - E[X]) * (y - E[Y]) * 1/(n - 1)] and the correlation
    [r = cov(X, Y) / sX sY]. *)

Module formulas.
Local Open Scope R_scope.

Definition mu (x : list R) : R := numpy.sum x * (1 / INR (length x)).

Definition sample_variance (x : list R) : R :=
  numpy.sum (map (λ xi, (xi - mu x) ^ 2) x) * (1 / (INR (length x) - 1)).

Definition sample_covariance (x y : list R) : R :=
  numpy.sum (zip_with (λ xi yi, (xi - mu x) * (yi - mu y)) x y)
  * (1 / (INR (length x) - 1)).

Definition sample_std (x : list R) : R := sqrt (sample_variance x).

Definition pearson_r (x y : list R) : R :=
  sample_covariance x y / (sample_std x * sample_std y).

End formulas.

(** ** SciPy's rank statistics *)

(** What the development does not compute: the two-sided p-value that
    [spearmanr] derives from the coefficient and the sample size through the
    t distribution, and the statistic and p-value of [kendalltau]. *)
Class SciPyStats : Type := {
  spearman_prob : R → nat → R;
  kendall_statistic : list R → list R → R * R;
}.

Module scipy_stats.
Local Open Scope R_scope.

(** [rankdata(a)] with the default method ['average']: a value's rank is
    [.5 * (count[dense] + count[dense - 1] + 1)], where [count[dense - 1]]
    is the number of elements below the value and [count[dense]] the number
    of elements not above it. *)
Definition rankdata (a : list R) : list R :=
  map (λ v, 1 / 2 * (INR (length (filter (λ b, b <= v) a))
                     + INR (length (filter (λ b, b < v) a)) + 1)) a.

(** [spearmanr(a, b)]: both samples are ranked, [rs = corrcoef(ar, br)], and
    the (2, 2) result is read at [rs[1, 0]]. *)
Definition spearmanr `{SciPyStats} (a b : list R) : outcome (R * R) :=
  match numpy.corrcoef (rankdata a) (rankdata b) with
  | inl e => inl e
  | inr rs =>
      let rho := numpy.entry rs 1 0 in
      inr (rho, spearman_prob rho (length a))
  end.

(** [kendalltau(x, y)] refuses samples of different sizes before computing
    anything. *)
Definition kendalltau `{SciPyStats} (x y : list R) : outcome (R * R) :=
  if decide (length x = length y) then inr (kendall_statistic x y)
  else inl (ValueError "scipy.stats.kendalltau").

End scipy_stats.

(** ** The Python kernel *)

(** The global generator of [numpy.random]: [seed] installs a state that
    depends on its argument alone, and every draw advances the state. *)
Class NumpyRandom : Type := {
  rng : Type;
  seed_state : Z → rng;
  random_sample : rng → R * rng;
}.

(** Conversion of numbers to text by [print] and the [%] operator. *)
Class Formatting : Type := {
  fmt_f : nat → R → string;
  repr_array : list R → string;
  repr_matrix : list (list R) → string;
}.

Module python.

Record kernel `{NumpyRandom} : Type := Kernel {
  np_random : rng;
  stdout : list string;
  figures : list (list R * list R);
  disk : gmap string string;
}.

Section statements.
Context `{NumpyRandom}.

(** [seed(n)] *)
Definition seed (n : Z) : script kernel unit :=
  modify (λ k, Kernel _ (seed_state n) (stdout k) (figures k) (disk k)).

Fixpoint draw (n : nat) (g : rng) : list R * rng :=
  match n with
  | O => ([], g)
  | S n' =>
      let (a, g1) := random_sample g in
      let (l, g2) := draw n' g1 in
      (a :: l, g2)
  end.

(** [rand(n)] *)
Definition rand (n : nat) : script kernel (list R) :=
  λ k, let (l, g) := draw n (np_random k) in
       (inr l, Kernel _ g (stdout k) (figures k) (disk k)).

(** [print(line)] *)
Definition print (line : string) : script kernel unit :=
  modify (λ k, Kernel _ (np_random k) (stdout k ++ [line]) (figures k) (disk k)).

(** [pyplot.scatter(a, b)] followed by [pyplot.show()] *)
Definition scatter_show (a b : list R) : script kernel unit :=
  modify (λ k, Kernel _ (np_random k) (stdout k) (figures k ++ [(a, b)]) (disk k)).

(** [open(filename).read()] *)
Definition read_file (filename : string) : script kernel string :=
  λ k, match disk k !! filename with
       | Some text => (inr text, k)
       | None => (inl (IOError "open"), k)
       end.

(** Writing a file, as the libraries' save routines do with
    [overwrite=True]. *)
Definition write_file (filename contents : string) : script kernel unit :=
  modify (λ k, Kernel _ (np_random k) (stdout k) (figures k)
                 (<[filename := contents]> (disk k))).

(** Running one notebook cell: the cell's output area starts empty. *)
Definition execute {A : Type} (cell : script kernel A) (k : kernel)
  : outcome A * kernel :=
  cell (Kernel _ (np_random k) [] [] (disk k)).

End statements.
End python.

(** ** The NumPy notebook's covariance cells *)

Module covariance_notebook.
Import python.
Local Open Scope R_scope.

(** [x = array([1,2,3,4,5,6,7,8,9])], [y = array([9,8,7,6,5,4,3,2,1])] *)
Definition x : list R := [1; 2; 3; 4; 5; 6; 7; 8; 9].
Definition y : list R := [9; 8; 7; 6; 5; 4; 3; 2; 1].

Section cells.
Context `{NumpyRandom} `{Formatting}.

(** Cell 6: [Sigma = cov(x,y)[0,1]] *)
Definition covariance_cell : script kernel R :=
  print (repr_array x);;
  print (repr_array y);;
  c ← call (numpy.cov x y);
  let Sigma := numpy.entry c 0 1 in
  print (fmt_f 1 Sigma);;
  mret Sigma.

(** Cell 7: [Sigma = corrcoef(x,y)] *)
Definition corrcoef_cell : script kernel (list (list R)) :=
  print (repr_array x);;
  print (repr_array y);;
  Sigma ← call (numpy.corrcoef x y);
  print (repr_matrix Sigma);;
  mret Sigma.

(** Cell 8: [Sigma = cov(x,y)] *)
Definition covariance_matrix_cell : script kernel (list (list R)) :=
  print (repr_array x);;
  print (repr_array y);;
  Sigma ← call (numpy.cov x y);
  print (repr_matrix Sigma);;
  mret Sigma.

End cells.
End covariance_notebook.

(** ** The rank-correlation notebook *)

Module rank_correlation_notebook.
Import python.
Local Open Scope R_scope.

Section cells.
Context `{NumpyRandom} `{Formatting} `{SciPyStats}.

(** The variables a complete example leaves in the kernel's name space. *)
Record globals : Type := Globals {
  data1 : list R;
  data2 : list R;
  coef : R;
  p : R;
}.


(** Complete example "generate related variables". *)
Definition scatter_example : script kernel (list R * list R) :=
  seed 1;;
  r1 ← rand 1000;
  let data1 := numpy.scale r1 20 in
  r2 ← rand 1000;
  data2 ← call (numpy.add data1 (numpy.scale r2 10));
  scatter_show data1 data2;;
  mret (data1, data2).



(** The interpretation printed at the end of both examples. *)
Definition interpret (p : R) : script kernel unit :=
  let alpha := 0.05 in
  if decide (p > alpha)
  then print ("Samples are uncorrelated (fail to reject H0) p=" +:+ fmt_f 3 p)
  else print ("Samples are correlated (reject H0) p=" +:+ fmt_f 3 p).

(** Complete example "calculate the spearman's correlation between two
    variables". *)
Definition spearman_example : script kernel globals :=
  seed 1;;
  r1 ← rand 1000;
  let data1 := numpy.scale r1 20 in
  r2 ← rand 1000;
  data2 ← call (numpy.add data1 (numpy.scale r2 10));
  '(coef, p) ← call (scipy_stats.spearmanr data1 data2);
  print ("Spearmans correlation coefficient: " +:+ fmt_f 3 coef);;
  interpret p;;
  mret (Globals data1 data2 coef p).

(** Complete example "calculate the kendall's correlation between two
    variables". *)
Definition kendall_example : script kernel globals :=
  seed 1;;
  r1 ← rand 1000;
  let data1 := numpy.scale r1 20 in
  r2 ← rand 1000;
  data2 ← call (numpy.add data1 (numpy.scale r2 10));
  '(coef, p) ← call (scipy_stats.kendalltau data1 data2);
  print ("Kendall correlation coefficient: " +:+ fmt_f 3 coef);;
  interpret p;;
  mret (Globals data1 data2 coef p).


End cells.
End rank_correlation_notebook.

(** ** The test dataset in binary64

    The two assignments of the test-dataset construction are elementwise, so
    they can also be written in the arithmetic NumPy performs them in:
    [data1 = rand(1000) * 20], [data2 = data1 + (rand(1000) * 10)], as a
    function of the two vectors that [rand] returns. *)

Module binary64.

(** [a * c] *)
Definition scale (a : list float) (c : float) : list float :=
  map (λ v, PrimFloat.mul v c) a.

(** [a + b], with the shapes treated as by [numpy.add]. *)
Definition add (a b : list float) : outcome (list float) :=
  if decide (length a = length b) then inr (zip_with PrimFloat.add a b)
  else match a, b with
       | [u], _ => inr (map (λ v, PrimFloat.add u v) b)
       | _, [v] => inr (map (λ u, PrimFloat.add u v) a)
       | _, _ => inl (ValueError "numpy.add")
       end.




End binary64.

(** ** The Keras text-generation notebook *)

(** The layers the notebook stacks. *)
Inductive layer : Type :=
  | LSTM (units : nat) (input_shape : nat * nat)
  | Dropout (rate : R)
  | Dense (units : nat) (activation : string).

(** What Keras and its tensor backend contribute: the backend state (its own
    random generator among it), the trainable network behind a model, the
    creation of a layer's weights, one epoch of training with the loss it
    reports, and the HDF5 image of a model. *)
Class Keras : Type := {
  backend : Type;
  network : Type;
  Sequential_network : network;
  add_layer : layer → network → backend → network * backend;
  compile_network : string → string → network → network;
  train_epoch :
    list (list (list R)) → list (list R) → nat → network → backend
    → (network * R) * backend;
  save_model : network → string;
}.

Module keras.
Import python.

Section statements.
Context `{NumpyRandom} `{Formatting} `{Keras}.

(** The interpreter state of the notebook: the Python kernel and the tensor
    backend. *)
Definition state : Type := kernel * backend.

(** A kernel statement run in the larger state. *)
Definition py {A : Type} (c : script kernel A) : script state A :=
  λ '(k, b), let (o, k') := c k in (o, (k', b)).

Record model : Type := Model {
  layers : list layer;
  net : network;
}.

(** [Sequential()] *)
Definition Sequential : model := Model [] Sequential_network.

(** [model.add(l)] *)
Definition add (l : layer) (m : model) : script state model :=
  λ '(k, b), let (n, b') := add_layer l (net m) b in
             (inr (Model (layers m ++ [l]) n), (k, b')).

(** [model.compile(loss=..., optimizer=...)] *)
Definition compile (loss optimizer : string) (m : model) : model :=
  Model (layers m) (compile_network loss optimizer (net m)).

(** [np_utils.to_categorical(y)]: the number of classes is [max(y) + 1],
    which does not exist for an empty [y]. *)
Definition to_categorical (y : list nat) : outcome (list (list R)) :=
  match y with
  | [] => inl (ValueError "numpy.max")
  | _ =>
      let num_classes := S (foldr Nat.max 0%nat y) in
      inr (map (λ c, map (λ j, if decide (j = c) then 1%R else 0%R)
                         (seq 0 num_classes)) y)
  end.

(** ["{epoch:02d}"] *)
Definition fmt_02d (n : nat) : string :=
  if decide (n < 10)%nat then "0" +:+ pretty n else pretty n.

(** [ModelCheckpoint(filepath, monitor='loss', verbose=1,
    save_best_only=True, mode='min')]: the callback keeps the best loss seen
    so far, [None] standing for the initial infinity. *)
Record ModelCheckpoint : Type := Checkpoint {
  filepath : nat → R → string;
  best : option R;
}.

(** [monitor_op(current, best)] for [mode='min'] *)
Definition improved (current : R) (best : option R) : bool :=
  match best with
  | None => true
  | Some b => bool_decide (current < b)%R
  end.

(** [on_epoch_end(epoch, logs)] with [save_best_only=True]: on an
    improvement the model is saved under the formatted name, overwriting. *)
Definition on_epoch_end (cb : ModelCheckpoint) (epoch : nat) (loss : R)
    (m : model) : script state ModelCheckpoint :=
  if improved loss (best cb) then
    py (write_file (filepath cb (epoch + 1) loss) (save_model (net m)));;
    mret (Checkpoint (filepath cb) (Some loss))
  else mret cb.

(** The epochs of [model.fit(X, y, epochs=..., batch_size=...,
    callbacks=[cb])], from [epoch] on. *)
Fixpoint fit_from (X : list (list (list R))) (y : list (list R))
    (batch_size : nat) (epoch remaining : nat) (cb : ModelCheckpoint)
    (m : model) : script state (model * ModelCheckpoint) :=
  match remaining with
  | O => mret (m, cb)
  | S remaining' =>
      m' ← (λ '(k, b),
              let '(n, loss, b') := train_epoch X y batch_size (net m) b in
              (inr (Model (layers m) n, loss), (k, b')));
      cb' ← on_epoch_end cb epoch m'.2 m'.1;
      fit_from X y batch_size (S epoch) remaining' cb' m'.1
  end.

Definition fit (X : list (list (list R))) (y : list (list R))
    (epochs batch_size : nat) (cb : ModelCheckpoint) (m : model)
  : script state (model * ModelCheckpoint) :=
  fit_from X y batch_size 0 epochs cb m.

End statements.
End keras.

Module text_generation_notebook.
Import python keras.

Definition seq_length : nat := 100.

(** [str.lower()] on the bytes of a Python 2 string. *)
Definition lower_char (c : ascii) : ascii :=
  let n := nat_of_ascii c in
  if decide (65 ≤ n ∧ n ≤ 90) then ascii_of_nat (n + 32) else c.

Definition lower (text : list ascii) : list ascii := map lower_char text.

(** The order of characters: by code. *)
Definition char_le (a b : ascii) : Prop := nat_of_ascii a ≤ nat_of_ascii b.

#[global] Instance char_le_decision (a b : ascii) : Decision (char_le a b) :=
  decide (nat_of_ascii a ≤ nat_of_ascii b).

(** [sorted(list(set(raw_text)))] *)
Definition sorted_chars (raw_text : list ascii) : list ascii :=
  merge_sort char_le (remove_dups raw_text).

(** [dict((c, i) for i, c in enumerate(chars))]: later pairs overwrite
    earlier ones. *)
Definition char_to_int_of (chars : list ascii) : gmap ascii nat :=
  foldl (λ d ic, <[ic.2 := ic.1]> d) ∅ (imap (λ i c, (i, c)) chars).

(** [char_to_int[c]] *)
Definition lookup_char (char_to_int : gmap ascii nat) (c : ascii) : outcome nat :=
  match char_to_int !! c with
  | Some i => inr i
  | None => inl (KeyError "char_to_int")
  end.

(** [raw_text[i]] *)
Definition char_at (raw_text : list ascii) (i : nat) : outcome ascii :=
  match raw_text !! i with
  | Some c => inr c
  | None => inl (IndexError "raw_text")
  end.

(** [raw_text[i:j]] *)
Definition slice (raw_text : list ascii) (i j : nat) : list ascii :=
  take (j - i) (drop i raw_text).

(** The body of the loop over [i]. *)
Definition pattern_step (raw_text : list ascii) (char_to_int : gmap ascii nat)
    (data : list (list nat) * list nat) (i : nat)
  : outcome (list (list nat) * list nat) :=
  let seq_in := slice raw_text i (i + seq_length) in
  seq_out ← char_at raw_text (i + seq_length);
  xs ← mapM (lookup_char char_to_int) seq_in;
  y ← lookup_char char_to_int seq_out;
  mret (data.1 ++ [xs], data.2 ++ [y]).

(** [for i in range(...): body], threading the two lists. *)
Fixpoint for_in {D : Type} (body : D → nat → outcome D) (range : list nat)
    (data : D) : outcome D :=
  match range with
  | [] => inr data
  | i :: range' => data' ← body data i; for_in body range' data'
  end.

(** [numpy.reshape(dataX, (n_patterns, seq_length, 1))] *)
Definition reshape (dataX : list (list nat)) (n_patterns seq_length : nat)
  : outcome (list (list (list R))) :=
  if decide (length dataX = n_patterns
             ∧ Forall (λ row, length row = seq_length) dataX)
  then inr (map (map (λ v, [INR v])) dataX)
  else inl (ValueError "numpy.reshape").

Section cells.
Context `{NumpyRandom} `{Formatting} `{Keras}.

(** ["weights-improvement-{epoch:02d}-{loss:.4f}.hdf5"] *)
Definition checkpoint_name (epoch : nat) (loss : R) : string :=
  "weights-improvement-" +:+ fmt_02d epoch +:+ "-" +:+ fmt_f 4 loss +:+ ".hdf5".

(** The full listing "Small LSTM Network to Generate Text for Alice in
    Wonderland". *)
Definition training_script : script state (model * ModelCheckpoint) :=
  let filename := "wonderland.txt" in
  text ← py (read_file filename);
  let raw_text := lower (list_ascii_of_string text) in
  let chars := sorted_chars raw_text in
  let char_to_int := char_to_int_of chars in
  let n_chars := length raw_text in
  let n_vocab := length chars in
  py (print ("Total Characters:  " +:+ pretty n_chars));;
  py (print ("Total Vocab:  " +:+ pretty n_vocab));;
  '(dataX, dataY) ← call (for_in (pattern_step raw_text char_to_int)
                                  (seq 0 (n_chars - seq_length)) ([], []));
  let n_patterns := length dataX in
  py (print ("Total Patterns:  " +:+ pretty n_patterns));;
  X ← call (reshape dataX n_patterns seq_length);
  let X := map (map (map (λ v, v / INR n_vocab)%R)) X in
  y ← call (to_categorical dataY);
  let model := Sequential in
  model ← add (LSTM 256 (seq_length, 1%nat)) model;
  model ← add (Dropout 0.2) model;
  model ← add (Dense (length (default [] (head y))) "softmax") model;
  let model := compile "categorical_crossentropy" "adam" model in
  let checkpoint := Checkpoint checkpoint_name None in
  fit X y 20 128 checkpoint model.

(** What a run may do to the disk: a path either keeps its content or is a
    checkpoint name holding a saved model. *)
Definition only_checkpoints_written (before after : gmap string string) : Prop :=
  ∀ path : string,
    after !! path = before !! path
    ∨ ∃ (epoch : nat) (loss : R) (n : network),
        path = checkpoint_name epoch loss ∧ after !! path = Some (save_model n).

End cells.
End text_generation_notebook.

(** ** The R recipes for finalizing a model *)

(** What R, caret, mlbench and randomForest contribute.  Data frames,
    factors, fitted models and the generator state are the libraries' own
    values; [Sonar] and [PimaIndiansDiabetes] are the data sets that
    [data(...)] loads; [column df name] is [df$name], [rows df i] is
    [df[i,]], [rows_except df i] is [df[-i,]] and [columns df a b] is
    [df[,a:b]]; [train] sees the number of workers of the registered foreach
    backend, if any. *)
Class RLibrary : Type := {
  r_rng : Type;
  set_seed_state : Z → r_rng;
  data_frame : Type;
  factor : Type;
  row_index : Type;
  Sonar : data_frame;
  PimaIndiansDiabetes : data_frame;
  column : data_frame → string → factor;
  createDataPartition : factor → R → r_rng → row_index * r_rng;
  rows : data_frame → row_index → data_frame;
  rows_except : data_frame → row_index → data_frame;
  columns : data_frame → nat → nat → data_frame;
  control : Type;
  trainControl : string → nat → option nat → control;
  caret_model : Type;
  train :
    string → data_frame → string → string → control → option nat
    → option nat → r_rng → caret_model * r_rng;
  show_train : caret_model → list string;
  show_finalModel : caret_model → list string;
  predict_train : caret_model → data_frame → r_rng → factor * r_rng;
  forest : Type;
  randomForest : string → data_frame → nat → nat → r_rng → forest * r_rng;
  show_forest : forest → list string;
  predict_forest : forest → data_frame → r_rng → factor * r_rng;
  confusionMatrix : factor → factor → list string;
  serialize : forest → string;
  unserialize : string → option forest;
}.

Module r_session.

Section statements.
Context `{RLibrary}.

Record session : Type := Session {
  seed : r_rng;
  attached : list string;
  workers : option nat;
  console : list string;
  files : gmap string string;
}.

(** [library(pkg)] *)
Definition library (pkg : string) : script session unit :=
  modify (λ s, Session (seed s) (attached s ++ [pkg]) (workers s)
                 (console s) (files s)).

(** [registerDoMC(cores=n)] *)
Definition registerDoMC (cores : nat) : script session unit :=
  modify (λ s, Session (seed s) (attached s) (Some cores) (console s) (files s)).

(** [set.seed(n)] *)
Definition set_seed (n : Z) : script session unit :=
  modify (λ s, Session (set_seed_state n) (attached s) (workers s)
                 (console s) (files s)).

(** A library routine that draws from the session's generator. *)
Definition sample {A : Type} (f : r_rng → A * r_rng) : script session A :=
  λ s, let (a, g) := f (seed s) in
       (inr a, Session g (attached s) (workers s) (console s) (files s)).

(** Printed output, by [print] or by a value at top level. *)
Definition show (lines : list string) : script session unit :=
  modify (λ s, Session (seed s) (attached s) (workers s)
                 (console s ++ lines) (files s)).

(** [train(...)], which runs its resamples on the registered backend. *)
Definition caret_train (formula : string) (data : data_frame)
    (method metric : string) (trControl : control) (ntree : option nat)
  : script session caret_model :=
  λ s, sample (train formula data method metric trControl ntree (workers s)) s.

(** [saveRDS(object, file)] *)
Definition saveRDS (object : forest) (file : string) : script session unit :=
  modify (λ s, Session (seed s) (attached s) (workers s) (console s)
                 (<[file := serialize object]> (files s))).

(** [readRDS(file)] *)
Definition readRDS (file : string) : script session forest :=
  λ s, match files s !! file with
       | None => (inl (simpleError "gzfile"), s)
       | Some bytes =>
           match unserialize bytes with
           | None => (inl (simpleError "readRDS"), s)
           | Some object => (inr object, s)
           end
       end.

End statements.
End r_session.

Module finalize_recipes.
Import r_session.
Local Open Scope R_scope.

Section chunks.
Context `{RLibrary}.

(** Recipe 1, "Make Predictions On New Data". *)
Definition make_predictions : script session factor :=
  library "caret";;
  library "mlbench";;
  set_seed 9;;
  validation_index ←
    sample (createDataPartition (column PimaIndiansDiabetes "diabetes") 0.80);
  let validation := rows_except PimaIndiansDiabetes validation_index in
  let training := rows PimaIndiansDiabetes validation_index in
  set_seed 9;;
  let control := trainControl "cv" 10 None in
  fit_lda ← caret_train "diabetes~." training "lda" "Accuracy" control None;
  show (show_train fit_lda);;
  show (show_finalModel fit_lda);;
  set_seed 9;;
  predictions ← sample (predict_train fit_lda validation);
  show (confusionMatrix predictions (column validation "diabetes"));;
  mret predictions.

(** Recipe 2, "Create A Standalone Model". *)
Definition standalone_model : script session (forest * factor) :=
  library "caret";;
  library "mlbench";;
  library "randomForest";;
  set_seed 7;;
  validation_index ← sample (createDataPartition (column Sonar "Class") 0.80);
  let validation := rows_except Sonar validation_index in
  let training := rows Sonar validation_index in
  set_seed 7;;
  let control := trainControl "repeatedcv" 10 (Some 3%nat) in
  fit_rf ← caret_train "Class~." training "rf" "Accuracy" control (Some 2000%nat);
  show (show_train fit_rf);;
  show (show_finalModel fit_rf);;
  set_seed 7;;
  finalModel ← sample (randomForest "Class~." training 2 2000);
  final_predictions ← sample (predict_forest finalModel (columns validation 1 60));
  show (confusionMatrix final_predictions (column validation "Class"));;
  mret (finalModel, final_predictions).

(** The variables recipe 3 leaves in the global environment. *)
Record environment : Type := Environment {
  validation : data_frame;
  training : data_frame;
  final_model : forest;
  super_model : forest;
  final_predictions : factor;
}.

(** Recipe 3, "Save and Load Your Model". *)
Definition save_and_load : script session environment :=
  library "caret";;
  library "mlbench";;
  library "randomForest";;
  library "doMC";;
  registerDoMC 8;;
  set_seed 7;;
  validation_index ← sample (createDataPartition (column Sonar "Class") 0.80);
  let validation := rows_except Sonar validation_index in
  let training := rows Sonar validation_index in
  set_seed 7;;
  final_model ← sample (randomForest "Class~." training 2 2000);
  saveRDS final_model "./final_model.rds";;
  super_model ← readRDS "./final_model.rds";
  show (show_forest super_model);;
  final_predictions ← sample (predict_forest super_model (columns validation 1 60));
  show (confusionMatrix final_predictions (column validation "Class"));;
  mret (Environment validation training final_model super_model final_predictions).

(** The split and the forest that recipes 2 and 3 compute after
    [set.seed(7)]. *)
Definition sonar_index : row_index :=
  fst (createDataPartition (column Sonar "Class") 0.80 (set_seed_state 7)).

Definition sonar_forest : forest * r_rng :=
  randomForest "Class~." (rows Sonar sonar_index) 2 2000 (set_seed_state 7).


End chunks.
End finalize_recipes.

(** ** A small instance of the library interfaces

    Used to run the scripts on concrete inputs.  The generator counts: the
    state is a natural number [g], a draw yields [1 / (g + 2)] and moves to
    [g + 1]. *)

Module sample_runtime.
Local Open Scope R_scope.

Definition counting_random : NumpyRandom :=
  {| rng := nat;
     seed_state := Z.to_nat;
     random_sample := λ g, (1 / (INR g + 2), S g) |}.

Definition plain_formatting : Formatting :=
  {| fmt_f := λ _ _, "#"%string;
     repr_array := λ _, "[#]"%string;
     repr_matrix := λ _, "[[#]]"%string |}.

Definition flat_stats : SciPyStats :=
  {| spearman_prob := λ _ _, 0;
     kendall_statistic := λ _ _, (0, 0) |}.

Definition fresh_kernel : @python.kernel counting_random :=
  @python.Kernel counting_random 0%nat [] [] ∅.

(** The opening of the book, as the content of wonderland.txt. *)
Definition book_opening : string :=
  "Alice was beginning to get very tired of sitting by her sister on the bank, and of having nothing to do: once or twice she had peeped into the book her sister was reading".

Definition kernel_with_book : @python.kernel counting_random :=
  @python.Kernel counting_random 0%nat [] [] {["wonderland.txt"%string := book_opening]}.

(** A backend whose network is the number of epochs trained so far and
    whose loss after [n] epochs is [1 / (n + 1)]. *)
Definition epoch_counter : Keras :=
  {| backend := unit;
     network := nat;
     Sequential_network := 0%nat;
     add_layer := λ _ n b, (n, b);
     compile_network := λ _ _ n, n;
     train_epoch := λ _ _ _ n b, (S n, 1 / (INR n + 1), b);
     save_model := λ n, pretty n |}.

(** An R whose data frames are lists of rows of numbers, whose forest
    remembers the size of its training data and predicts it for every row,
    and whose serialization writes that number in unary. *)
Definition tabular_r : RLibrary :=
  {| r_rng := nat;
     set_seed_state := Z.to_nat;
     data_frame := list (list nat);
     factor := list nat;
     row_index := nat;
     Sonar := [[1; 2]; [3; 4]; [5; 6]]%nat;
     PimaIndiansDiabetes := [[1; 0]; [0; 1]]%nat;
     column := λ df _, map (λ row, List.last row 0%nat) df;
     createDataPartition := λ f _ g, (Nat.div (length f * 4) 5, S g);
     rows := λ df i, take i df;
     rows_except := λ df i, drop i df;
     columns := λ df a b, map (λ row, take (S b - a) (drop (a - 1) row)) df;
     control := unit;
     trainControl := λ _ _ _, tt;
     caret_model := nat;
     train := λ _ df _ _ _ _ _ g, (length df, S g);
     show_train := λ m, [pretty m];
     show_finalModel := λ m, [pretty m];
     predict_train := λ m df g, (map (λ _, m) df, g);
     forest := nat;
     randomForest := λ _ df _ _ g, (length df, S g);
     show_forest := λ m, [pretty m];
     predict_forest := λ m df g, (map (λ _, m) df, g);
     confusionMatrix := λ a b, [pretty (length a)];
     serialize := λ m, string_of_list_ascii (replicate m "t"%char);
     unserialize := λ s, Some (String.length s) |}.

Definition fresh_session : @r_session.session tabular_r :=
  @r_session.Session tabular_r 0%nat [] None [] ∅.

End sample_runtime.

(** ** The data preparation of the text-generation notebook, on its own *)

Module text_generation_data.
Import text_generation_notebook.

(** The loop [for i in range(0, n_chars - seq_length, 1)] of both listings,
    started on empty [dataX] and [dataY], with [chars] and [char_to_int]
    built from the same text. *)
Definition prepare_patterns (raw_text : list ascii)
  : outcome (list (list nat) * list nat) :=
  let chars := sorted_chars raw_text in
  let char_to_int := char_to_int_of chars in
  let n_chars := length raw_text in
  for_in (pattern_step raw_text char_to_int)
         (seq 0 (n_chars - seq_length)) ([], []).

(** [int_to_char = dict((i, c) for i, c in enumerate(chars))] *)
Definition int_to_char_of (chars : list ascii) : gmap nat ascii :=
  foldl (λ d ic, <[ic.1 := ic.2]> d) ∅ (imap (λ i c, (i, c)) chars).

(** The code a dictionary gives a character, [0] standing in where the
    lookup would raise. *)
Definition code_of (char_to_int : gmap ascii nat) (c : ascii) : nat :=
  default 0 (char_to_int !! c).

(** The row and the target that iteration [i] of the loop appends. *)
Definition window (raw_text : list ascii) (i : nat) : list nat :=
  map (code_of (char_to_int_of (sorted_chars raw_text)))
      (slice raw_text i (i + seq_length)).

Definition target (raw_text : list ascii) (i : nat) : nat :=
  from_option (code_of (char_to_int_of (sorted_chars raw_text))) 0
              (raw_text !! (i + seq_length)).

(** An upper-case letter of ASCII. *)
Definition is_upper (c : ascii) : Prop :=
  65 ≤ nat_of_ascii c ∧ nat_of_ascii c ≤ 90.

End text_generation_data.

(** ** The epochs of a fit, listed *)

Module training_history.
Import keras.

Section history.
Context `{Keras}.

(** The network and the loss that each epoch of [model.fit] yields, in
    order, for a model whose network is [n] and a backend in state [b]. *)
Fixpoint epoch_results (X : list (list (list R))) (y : list (list R))
    (batch_size epochs : nat) (n : network) (b : backend)
  : list (network * R) :=
  match epochs with
  | O => []
  | S epochs' =>
      let '(n', loss, b') := train_epoch X y batch_size n b in
      (n', loss) :: epoch_results X y batch_size epochs' n' b'
  end.

(** The best loss a [mode='min'] callback holds after seeing [losses],
    starting from [best]. *)
Definition best_after (best : option R) (losses : list R) : option R :=
  foldl (λ best loss, if improved loss best then Some loss else best)
        best losses.

End history.
End training_history.

(** ** The generation listing of the text-generation notebook *)

(** What the second listing needs beyond training: [numpy.random.randint]
    on the kernel's generator, the reading of a weights file into a network
    ([None] when the file does not fit the model), and [model.predict] on
    one input, flattened to the vector of class probabilities. *)
Class KerasInference `{NumpyRandom} `{Keras} : Type := {
  randint : Z → Z → rng → Z * rng;
  load_weights : string → network → option network;
  predict : network → list (list (list R)) → list R;
}.

Module generation_listing.
Import python keras text_generation_notebook text_generation_data.

(** What the variable [pattern] is bound to: row [i] of [dataX] itself, as
    after [pattern = dataX[start]], or a list of its own, as after a slice. *)
Inductive reference : Type :=
  | Row (i : nat)
  | Own (l : list nat).

Record variables : Type := Variables {
  dataX : list (list nat);
  pattern : reference;
}.

(** The list [pattern] denotes. *)
Definition value (v : variables) : list nat :=
  match pattern v with
  | Row i => default [] (dataX v !! i)
  | Own l => l
  end.

(** [pattern.append(index)] changes the list itself, so a row of [dataX]
    when [pattern] is bound to one. *)
Definition append (index : nat) (v : variables) : variables :=
  match pattern v with
  | Row i => Variables (alter (λ row, row ++ [index]) i (dataX v)) (Row i)
  | Own l => Variables (dataX v) (Own (l ++ [index]))
  end.

(** [pattern = pattern[1:len(pattern)]] binds [pattern] to a new list. *)
Definition drop_first (v : variables) : variables :=
  Variables (dataX v) (Own (take (length (value v) - 1) (drop 1 (value v)))).

(** [numpy.argmax(a)]: the first position of the largest entry. *)
Fixpoint argmax_from (best_at : nat) (best : R) (at_ : nat) (a : list R) : nat :=
  match a with
  | [] => best_at
  | v :: a' =>
      if decide (best < v)%R then argmax_from at_ v (S at_) a'
      else argmax_from best_at best (S at_) a'
  end.

Definition argmax (a : list R) : outcome nat :=
  match a with
  | [] => inl (ValueError "numpy.argmax")
  | v :: a' => inr (argmax_from 0 v 1 a')
  end.

(** [int_to_char[i]] *)
Definition lookup_int (int_to_char : gmap nat ascii) (i : nat) : outcome ascii :=
  match int_to_char !! i with
  | Some c => inr c
  | None => inl (KeyError "int_to_char")
  end.

(** [l[i]] for a Python integer: a negative index counts from the end. *)
Definition item {A : Type} (l : list A) (i : Z) : outcome nat :=
  let n := Z.of_nat (length l) in
  if decide (0 ≤ i < n)%Z then inr (Z.to_nat i)
  else if decide (- n ≤ i < 0)%Z then inr (Z.to_nat (n + i))
  else inl (IndexError "list").

(** [pattern] is bound to a list that exists. *)
Definition bound (v : variables) : Prop :=
  match pattern v with
  | Row i => i < length (dataX v)
  | Own _ => True
  end.

(** The text that [sys.stdout.write] receives for a generated code. *)
Definition written (chars : list ascii) (code : nat) : string :=
  from_option (λ c, String c "") "" (chars !! code).

Section cells.
Context `{NumpyRandom} `{Formatting} `{Keras} `{!KerasInference}.

(** [sys.stdout.write(text)]; the text is recorded as one entry of the
    output. *)
Definition write (text : string) : script kernel unit :=
  modify (λ k, Kernel _ (np_random k) (stdout k ++ [text]) (figures k) (disk k)).

(** [numpy.random.randint(low, high)], which refuses an empty range. *)
Definition numpy_randint (low high : Z) : script kernel Z :=
  if decide (low < high)%Z then
    λ k, let (v, g) := randint low high (np_random k) in
         (inr v, Kernel _ g (stdout k) (figures k) (disk k))
  else call (inl (ValueError "numpy.random.randint")).

(** [model.load_weights(filename)] *)
Definition model_load_weights (filename : string) (m : model)
  : script kernel model :=
  λ k, match disk k !! filename with
       | None => (inl (IOError "h5py.File"), k)
       | Some bytes =>
           match load_weights bytes (net m) with
           | None => (inl (ValueError "load_weights"), k)
           | Some n => (inr (Model (layers m) n), k)
           end
       end.

(** [start = numpy.random.randint(0, len(dataX)-1)] and the row that
    [pattern = dataX[start]] binds. *)
Definition pick_seed (dataX : list (list nat)) : script kernel nat :=
  start ← numpy_randint 0 (Z.of_nat (length dataX) - 1);
  call (item dataX start).

(** The body of [for i in range(1000)]. *)
Definition generate_step (int_to_char : gmap nat ascii) (n_vocab : nat)
    (m : model) (v : variables) : script kernel variables :=
  let x := [map (λ code, [(INR code / INR n_vocab)%R]) (value v)] in
  let prediction := predict (net m) x in
  index ← call (argmax prediction);
  result ← call (lookup_int int_to_char index);
  seq_in ← call (mapM (lookup_int int_to_char) (value v));
  write (String result "");;
  mret (drop_first (append index v)).

Fixpoint generate (steps : nat) (int_to_char : gmap nat ascii) (n_vocab : nat)
    (m : model) (v : variables) : script kernel variables :=
  match steps with
  | O => mret v
  | S steps' =>
      v' ← generate_step int_to_char n_vocab m v;
      generate steps' int_to_char n_vocab m v'
  end.

(** The double quote and the line feed, for the strings that hold them. *)
Definition quote : string := String "034"%char "".
Definition line_feed : string := String "010"%char "".

(** The full listing "Load LSTM network and generate text". *)
Definition generation_script : script state variables :=
  let filename := "wonderland.txt" in
  text ← py (read_file filename);
  let raw_text := lower (list_ascii_of_string text) in
  let chars := sorted_chars raw_text in
  let char_to_int := char_to_int_of chars in
  let int_to_char := int_to_char_of chars in
  let n_chars := length raw_text in
  let n_vocab := length chars in
  py (print ("Total Characters:  " +:+ pretty n_chars));;
  py (print ("Total Vocab:  " +:+ pretty n_vocab));;
  '(dataX, dataY) ← call (for_in (pattern_step raw_text char_to_int)
                                  (seq 0 (n_chars - seq_length)) ([], []));
  let n_patterns := length dataX in
  py (print ("Total Patterns:  " +:+ pretty n_patterns));;
  X ← call (reshape dataX n_patterns seq_length);
  let X := map (map (map (λ v, v / INR n_vocab)%R)) X in
  y ← call (to_categorical dataY);
  let model := Sequential in
  model ← add (LSTM 256 (seq_length, 1%nat)) model;
  model ← add (Dropout 0.2) model;
  model ← add (Dense (length (default [] (head y))) "softmax") model;
  let filename := "weights-improvement-20-2.0518.hdf5" in
  model ← py (model_load_weights filename model);
  let model := compile "categorical_crossentropy" "adam" model in
  start ← py (pick_seed dataX);
  let v := Variables dataX (Row start) in
  py (print "Seed:");;
  seed_text ← call (mapM (lookup_int int_to_char) (value v));
  py (print (quote +:+ " " +:+ string_of_list_ascii seed_text +:+ " " +:+ quote));;
  v ← py (generate 1000 int_to_char n_vocab model v);
  py (print (line_feed +:+ "Done."));;
  mret v.

End cells.
End generation_listing.

(** ** The dataset of the complete rank-correlation examples *)

Module seeded_dataset.
Import python.
Local Open Scope R_scope.

Section dataset.
Context `{NumpyRandom}.

(** What [seed(1)] followed by the two assignments computes. *)
Definition first_draws : list R * rng := draw 1000 (seed_state 1).
Definition second_draws : list R * rng := draw 1000 (snd first_draws).
Definition data1 : list R := numpy.scale (fst first_draws) 20.
Definition data2 : list R :=
  zip_with Rplus data1 (numpy.scale (fst second_draws) 10).

End dataset.

(** The line that [if p > alpha: ... else: ...] prints. *)
Definition verdict `{Formatting} (p : R) : string :=
  if decide (p > 0.05)
  then "Samples are uncorrelated (fail to reject H0) p=" +:+ fmt_f 3 p
  else "Samples are correlated (reject H0) p=" +:+ fmt_f 3 p.

End seeded_dataset.

(** ** More concrete inputs *)

Module sample_inputs.
Import sample_runtime.

(** A kernel whose wonderland.txt holds fewer characters than one window. *)
Definition kernel_with_title : @python.kernel counting_random :=
  @python.Kernel counting_random 0%nat [] []
    {["wonderland.txt"%string := "ALICE'S ADVENTURES IN WONDERLAND"%string]}.

(** Inference that always answers with a single class. *)
Definition one_class : @KerasInference counting_random epoch_counter :=
  @Build_KerasInference counting_random epoch_counter
    (λ low high g, (low, S (g : nat)))
    (λ _ n, Some n)
    (λ _ _, [1%R]).

End sample_inputs.
(** ** Facts about the NumPy routines *)

Section numpy_facts.
Local Open Scope R_scope.

Lemma inner_comm (u v : list R) : numpy.inner u v = numpy.inner v u.
Proof.
  unfold numpy.inner. revert v.
  induction u as [|a u IH]; intros [|b v]; simpl; try reflexivity.
  rewrite IH. ring.
Qed.

Lemma inner_center (u v : list R) :
  numpy.inner (numpy.center u) (numpy.center v)
  = numpy.sum (zip_with (λ a b, (a - numpy.mean u) * (b - numpy.mean v)) u v).
Proof.
  unfold numpy.inner, numpy.center.
  generalize (numpy.mean u) (numpy.mean v). intros mu mv. revert v.
  induction u as [|a u IH]; intros [|b v]; simpl; try reflexivity.
  now rewrite IH.
Qed.

Lemma inner_center_diag (u : list R) :
  numpy.inner (numpy.center u) (numpy.center u)
  = numpy.sum (map (λ a, (a - numpy.mean u) * (a - numpy.mean u)) u).
Proof.
  rewrite inner_center. generalize (numpy.mean u). intros m.
  induction u as [|a u IH]; simpl; [reflexivity | now rewrite IH].
Qed.

Lemma mean_mu (v : list R) : numpy.mean v = formulas.mu v.
Proof. unfold numpy.mean, formulas.mu. unfold Rdiv. ring. Qed.

Lemma cov_equal_length (x y : list R) :
  length x = length y →
  numpy.cov x y
  = inr [[numpy.inner (numpy.center x) (numpy.center x) * (1 / INR (length x - 1));
          numpy.inner (numpy.center x) (numpy.center y) * (1 / INR (length x - 1))];
         [numpy.inner (numpy.center y) (numpy.center x) * (1 / INR (length x - 1));
          numpy.inner (numpy.center y) (numpy.center y) * (1 / INR (length x - 1))]].
Proof.
  intros Hlen. unfold numpy.cov. rewrite decide_True by exact Hlen. reflexivity.
Qed.


(** The divisor [max(N - 1, 0)] of the library and the [n - 1] of the
    notebook's formula agree on non-empty samples; on the empty sample the
    sums are zero. *)
Lemma fact_formula (n : nat) (s : R) :
  (n = 0%nat → s = 0) → s * (1 / INR (n - 1)) = s * (1 / (INR n - 1)).
Proof.
  intros Hs. destruct n as [|n].
  - rewrite Hs by reflexivity. ring.
  - replace (S n - 1)%nat with n by lia. rewrite S_INR.
    replace (INR n + 1 - 1) with (INR n) by ring. reflexivity.
Qed.

Lemma var1_sample_variance (v : list R) :
  numpy.var 1 v = formulas.sample_variance v.
Proof.
  unfold numpy.var, formulas.sample_variance. rewrite <- mean_mu.
  replace (map (λ xi, (xi - numpy.mean v) ^ 2) v)
    with (map (λ a, (a - numpy.mean v) * (a - numpy.mean v)) v).
  2:{ apply map_ext. intros a. ring. }
  unfold Rdiv at 1. rewrite <- (Rmult_1_l (/ INR (length v - 1))).
  fold (1 / INR (length v - 1)). apply fact_formula.
  intros Hn. destruct v; [reflexivity | discriminate].
Qed.

End numpy_facts.

(** ** Correlation: the clip of [corrcoef] never cuts *)

Section correlation_facts.
Local Open Scope R_scope.

Lemma clip_inside (q : R) : -1 <= q <= 1 → numpy.clip (-1) 1 q = q.
Proof.
  intros [Hlo Hhi]. unfold numpy.clip, Rmin, Rmax.
  repeat destruct (Rle_dec _ _); lra.
Qed.

Lemma corrcoef_equal_length (x y : list R) cxx cxy cyx cyy :
  numpy.cov x y = inr [[cxx; cxy]; [cyx; cyy]] →
  numpy.corrcoef x y
  = inr [[numpy.clip (-1) 1 (cxx / sqrt cxx / sqrt cxx);
          numpy.clip (-1) 1 (cxy / sqrt cxx / sqrt cyy)];
         [numpy.clip (-1) 1 (cyx / sqrt cyy / sqrt cxx);
          numpy.clip (-1) 1 (cyy / sqrt cyy / sqrt cyy)]].
Proof. intros Hcov. unfold numpy.corrcoef. rewrite Hcov. reflexivity. Qed.

(** The quadratic [sum (a t + b)^2], which is never negative. *)
Lemma quadratic_nonneg (u v : list R) (t : R) :
  0 <= numpy.sum (zip_with (λ a b, (a * t + b) * (a * t + b)) u v).
Proof.
  revert v. induction u as [|a u IH]; intros [|b v]; simpl; try lra.
  specialize (IH v). fold (numpy.sum (zip_with (λ a b, (a * t + b) * (a * t + b)) u v)).
  pose proof (Rle_0_sqr (a * t + b)) as Hsq. unfold Rsqr in Hsq. lra.
Qed.

Lemma quadratic_expand (u v : list R) (t : R) :
  length u = length v →
  numpy.sum (zip_with (λ a b, (a * t + b) * (a * t + b)) u v)
  = numpy.inner u u * (t * t) + 2 * numpy.inner u v * t + numpy.inner v v.
Proof.
  unfold numpy.inner. revert v.
  induction u as [|a u IH]; intros [|b v] Hlen; simpl in *; try discriminate.
  - ring.
  - rewrite IH by congruence. ring.
Qed.

Lemma inner_self_nonneg (u : list R) : 0 <= numpy.inner u u.
Proof.
  unfold numpy.inner. induction u as [|a u IH]; simpl; [lra | nra].
Qed.

(** Cauchy-Schwarz for two rows of equal length. *)
Lemma inner_cauchy_schwarz (u v : list R) :
  length u = length v →
  numpy.inner u v * numpy.inner u v <= numpy.inner u u * numpy.inner v v.
Proof.
  intros Hlen.
  pose proof (inner_self_nonneg u) as HA.
  pose proof (inner_self_nonneg v) as HB.
  set (A := numpy.inner u u) in *. set (B := numpy.inner v v) in *.
  set (C := numpy.inner u v).
  assert (Hq : ∀ t, 0 <= A * (t * t) + 2 * C * t + B).
  { intros t. unfold A, B, C. rewrite <- quadratic_expand by exact Hlen.
    apply quadratic_nonneg. }
  destruct (Req_dec A 0) as [HA0 | HA0].
  - destruct (Req_dec C 0) as [HC0 | HC0]; [rewrite HC0; nra |].
    exfalso. specialize (Hq (- (B + 1) / (2 * C))). rewrite HA0 in Hq.
    replace (0 * (- (B + 1) / (2 * C) * (- (B + 1) / (2 * C)))
             + 2 * C * (- (B + 1) / (2 * C)) + B) with (-1) in Hq
      by (field; exact HC0).
    lra.
  - specialize (Hq (- C / A)).
    replace (A * (- C / A * (- C / A)) + 2 * C * (- C / A) + B)
      with ((A * B - C * C) / A) in Hq by (field; exact HA0).
    assert (0 < A) by lra.
    apply Rmult_le_compat_r with (r := A) in Hq; [| lra].
    unfold Rdiv in Hq. rewrite Rmult_assoc, Rinv_l, Rmult_1_r in Hq by exact HA0.
    lra.
Qed.

(** A normalised off-diagonal entry lies in [-1, 1]. *)
Lemma normalised_bounds (cxx cyy c : R) :
  0 <= cxx → 0 <= cyy → c * c <= cxx * cyy →
  -1 <= c / sqrt cyy / sqrt cxx <= 1.
Proof.
  intros Hx Hy Hc.
  destruct (Req_dec (cxx * cyy) 0) as [Hz | Hnz].
  - assert (c = 0) as -> by nra.
    unfold Rdiv. rewrite !Rmult_0_l. lra.
  - assert (0 < cxx) by nra. assert (0 < cyy) by nra.
    pose proof (sqrt_lt_R0 cxx ltac:(assumption)) as Hsx.
    pose proof (sqrt_lt_R0 cyy ltac:(assumption)) as Hsy.
    pose proof (sqrt_sqrt cxx Hx) as Hsx2.
    pose proof (sqrt_sqrt cyy Hy) as Hsy2.
    set (sx := sqrt cxx) in *. set (sy := sqrt cyy) in *.
    assert (Hprod : 0 < sx * sy) by nra.
    assert (Hsq : c * c <= (sx * sy) * (sx * sy)) by nra.
    assert (Hbound : - (sx * sy) <= c <= sx * sy) by nra.
    replace (c / sy / sx) with (c / (sx * sy)) by (field; lra).
    split.
    + apply Rmult_le_reg_r with (r := sx * sy); [exact Hprod |].
      unfold Rdiv. rewrite Rmult_assoc, Rinv_l by lra. lra.
    + apply Rmult_le_reg_r with (r := sx * sy); [exact Hprod |].
      unfold Rdiv. rewrite Rmult_assoc, Rinv_l by lra. lra.
Qed.

Lemma center_length (v : list R) : length (numpy.center v) = length v.
Proof. unfold numpy.center. apply length_map. Qed.

Lemma rankdata_length (a : list R) : length (scipy_stats.rankdata a) = length a.
Proof. unfold scipy_stats.rankdata. apply length_map. Qed.

End correlation_facts.

(** ** The covariance matrix against the notebook's formulas *)

Section covariance_matrix.
Local Open Scope R_scope.

Lemma gram_sample_covariance (x y : list R) :
  numpy.inner (numpy.center x) (numpy.center y) * (1 / INR (length x - 1))
  = formulas.sample_covariance x y.
Proof.
  unfold formulas.sample_covariance. rewrite inner_center, <- !mean_mu.
  apply fact_formula. intros Hn. destruct x; [reflexivity | discriminate].
Qed.

Lemma gram_sample_variance (x : list R) :
  numpy.inner (numpy.center x) (numpy.center x) * (1 / INR (length x - 1))
  = formulas.sample_variance x.
Proof.
  rewrite <- var1_sample_variance. unfold numpy.var.
  rewrite inner_center_diag. unfold Rdiv. ring.
Qed.

Lemma cov_entries (x y : list R) :
  length x = length y →
  numpy.cov x y
  = inr [[formulas.sample_variance x; formulas.sample_covariance x y];
         [formulas.sample_covariance y x; formulas.sample_variance y]].
Proof.
  intros Hlen. rewrite cov_equal_length by exact Hlen.
  rewrite gram_sample_variance, gram_sample_covariance.
  rewrite Hlen, gram_sample_variance, gram_sample_covariance.
  reflexivity.
Qed.

Lemma sample_covariance_comm (x y : list R) :
  length x = length y →
  formulas.sample_covariance x y = formulas.sample_covariance y x.
Proof.
  intros Hlen. rewrite <- !gram_sample_covariance, Hlen.
  now rewrite inner_comm.
Qed.

Lemma sample_variance_nonneg (x : list R) : 0 <= formulas.sample_variance x.
Proof.
  rewrite <- gram_sample_variance.
  pose proof (inner_self_nonneg (numpy.center x)) as Hi.
  assert (0 <= 1 / INR (length x - 1)) as Hk.
  { destruct (Req_dec (INR (length x - 1)) 0) as [-> | Hnz].
    - unfold Rdiv. rewrite Rinv_0. lra.
    - pose proof (pos_INR (length x - 1)).
      apply Rlt_le, Rdiv_lt_0_compat; lra. }
  nra.
Qed.

Lemma sample_covariance_cauchy_schwarz (x y : list R) :
  length x = length y →
  formulas.sample_covariance x y * formulas.sample_covariance x y
  <= formulas.sample_variance y * formulas.sample_variance x.
Proof.
  intros Hlen.
  rewrite <- gram_sample_covariance, <- !gram_sample_variance, <- Hlen.
  pose proof (inner_cauchy_schwarz (numpy.center x) (numpy.center y)) as Hcs.
  rewrite !center_length in Hcs. specialize (Hcs Hlen).
  set (k := 1 / INR (length x - 1)).
  assert (0 <= k * k) by nra.
  nra.
Qed.



End covariance_matrix.

(** ** The covariance cells *)

Section covariance_cells.
Context `{NumpyRandom} `{Formatting}.
Local Open Scope R_scope.
Import python covariance_notebook.

Lemma cov_xy_value :
  numpy.cov x y = inr [[15 / 2; - (15 / 2)]; [- (15 / 2); 15 / 2]].
Proof.
  rewrite cov_equal_length by reflexivity.
  unfold numpy.inner, numpy.center, numpy.mean, numpy.sum, x, y. simpl.
  repeat f_equal; field.
Qed.

Lemma self_normalised (v : R) : 0 < v → v / sqrt v / sqrt v = 1.
Proof.
  intros Hv. pose proof (sqrt_lt_R0 v Hv) as Hs.
  pose proof (sqrt_sqrt v (Rlt_le _ _ Hv)) as Hs2.
  replace (v / sqrt v / sqrt v) with (v / (sqrt v * sqrt v)) by (field; lra).
  rewrite Hs2. field. lra.
Qed.

Lemma corrcoef_xy_value : numpy.corrcoef x y = inr [[1; -1]; [-1; 1]].
Proof.
  rewrite (corrcoef_equal_length _ _ _ _ _ _ cov_xy_value).
  assert (H15 : 0 < 15 / 2) by lra.
  pose proof (self_normalised _ H15) as Hone.
  replace (- (15 / 2) / sqrt (15 / 2) / sqrt (15 / 2))
    with (- (15 / 2 / sqrt (15 / 2) / sqrt (15 / 2)))
    by (unfold Rdiv; ring).
  rewrite Hone, !clip_inside by lra. reflexivity.
Qed.

(** C10: on the contrived reversed vectors the computations come out
    exactly: cov(x, y) is [[7.5, -7.5], [-7.5, 7.5]] and corrcoef(x, y) is
    [[1, -1], [-1, 1]], and these are the values the three notebook cells
    bind to Sigma, whatever the state of the kernel they run in. *)
Theorem contrived_vectors_recorded_outputs (k : kernel) :
  numpy.cov x y = inr [[7.5; -7.5]; [-7.5; 7.5]]
  ∧ numpy.corrcoef x y = inr [[1; -1]; [-1; 1]]
  ∧ fst (covariance_matrix_cell k) = inr [[7.5; -7.5]; [-7.5; 7.5]]
  ∧ fst (corrcoef_cell k) = inr [[1; -1]; [-1; 1]]
  ∧ fst (covariance_cell k) = inr (-7.5).
Proof.
  assert (Hcov : numpy.cov x y = inr [[7.5; -7.5]; [-7.5; 7.5]]).
  { rewrite cov_xy_value. repeat f_equal; lra. }
  repeat split.
  - exact Hcov.
  - exact corrcoef_xy_value.
  - unfold covariance_matrix_cell, mbind, script_bind, bind, call, print, modify.
    rewrite Hcov. reflexivity.
  - unfold corrcoef_cell, mbind, script_bind, bind, call, print, modify.
    rewrite corrcoef_xy_value. reflexivity.
  - unfold covariance_cell, mbind, script_bind, bind, call, print, modify.
    rewrite Hcov. reflexivity.
Qed.

End covariance_cells.


(** ** The rank-correlation notebook *)

(** Unfolds the statements of a script down to the library calls. *)
Ltac step_script :=
  cbv beta iota delta
    [python.execute mbind mret script_bind script_ret bind ret call modify
     python.seed python.rand python.print python.scatter_show];
  cbn [python.np_random python.stdout python.figures python.disk fst snd].

Section rank_correlation.
Context `{NumpyRandom} `{Formatting} `{SciPyStats}.
Local Open Scope R_scope.
Import python rank_correlation_notebook.




Lemma spearmanr_equal_length (a b : list R) :
  length a = length b →
  scipy_stats.spearmanr a b
  = inr (formulas.pearson_r (scipy_stats.rankdata a) (scipy_stats.rankdata b),
         spearman_prob
           (formulas.pearson_r (scipy_stats.rankdata a) (scipy_stats.rankdata b))
           (length a)).
Proof.
  intros Hlen.
  set (ra := scipy_stats.rankdata a). set (rb := scipy_stats.rankdata b).
  assert (Hr : length ra = length rb)
    by (unfold ra, rb; now rewrite !rankdata_length).
  unfold scipy_stats.spearmanr. fold ra rb.
  rewrite (corrcoef_equal_length _ _ _ _ _ _ (cov_entries ra rb Hr)).
  unfold numpy.entry; simpl.
  rewrite clip_inside.
  2:{ apply normalised_bounds; auto using sample_variance_nonneg.
      apply sample_covariance_cauchy_schwarz. now symmetry. }
  assert (Hq : formulas.sample_covariance rb ra
               / sqrt (formulas.sample_variance rb)
               / sqrt (formulas.sample_variance ra)
               = formulas.pearson_r ra rb).
  { unfold formulas.pearson_r, formulas.sample_std.
    rewrite (sample_covariance_comm rb ra) by now symmetry.
    unfold Rdiv. rewrite Rinv_mult. ring. }
  now rewrite Hq.
Qed.



(** *** The test dataset *)

Lemma draw_length (n : nat) (g : rng) : length (fst (draw n g)) = n.
Proof.
  revert g. induction n as [|n IH]; intros g; simpl; [reflexivity |].
  destruct (random_sample g) as [a g1]. specialize (IH g1).
  destruct (draw n g1) as [l g2]. simpl in *. now rewrite IH.
Qed.


Lemma scale_length (a : list R) (c : R) : length (numpy.scale a c) = length a.
Proof. unfold numpy.scale. apply length_map. Qed.

Lemma add_equal_length (a b : list R) :
  length a = length b → numpy.add a b = inr (zip_with Rplus a b).
Proof. intros Hlen. unfold numpy.add. now rewrite decide_True. Qed.





(** *** Determinism of the complete examples *)

(** C6: a complete example of the rank-correlation notebook gives the same
    result from any two kernels: the same data1 and data2, the same
    coefficient and p-value, the same printed lines (and the same plotted
    points for the scatter example) and the same generator state afterwards,
    because seed(1) replaces the generator state before the first draw. *)
Theorem complete_examples_are_deterministic (k1 k2 : kernel) :
  let same {A : Type} (cell : script kernel A) :=
    fst (execute cell k1) = fst (execute cell k2)
    ∧ stdout (snd (execute cell k1)) = stdout (snd (execute cell k2))
    ∧ figures (snd (execute cell k1)) = figures (snd (execute cell k2))
    ∧ np_random (snd (execute cell k1)) = np_random (snd (execute cell k2)) in
  same scatter_example ∧ same spearman_example ∧ same kendall_example.
Proof.
  cbv zeta. repeat split.
  all: unfold scatter_example, spearman_example, kendall_example, interpret.
  all: step_script.
  all: destruct (draw 1000 (seed_state 1)) as [r1 g1]; step_script.
  all: destruct (draw 1000 g1) as [r2 g2]; step_script.
  all: destruct (numpy.add _ _) as [e | d2]; try reflexivity.
  all: try (destruct (scipy_stats.spearmanr _ _) as [e | [c pv]];
            try reflexivity).
  all: try (destruct (scipy_stats.kendalltau _ _) as [e | [c pv]];
            try reflexivity).
  all: destruct (decide _); reflexivity.
Qed.

End rank_correlation.

(** ** The R recipes *)

Ltac step_recipe :=
  cbv beta iota delta
    [mbind mret script_bind script_ret bind ret call modify
     r_session.library r_session.registerDoMC r_session.set_seed
     r_session.sample r_session.show r_session.caret_train
     r_session.saveRDS r_session.readRDS];
  cbn [r_session.seed r_session.attached r_session.workers
       r_session.console r_session.files fst snd].

Section recipes.
Context `{RLibrary}.
Local Open Scope R_scope.
Import r_session finalize_recipes.

Lemma save_and_load_files (s : session) :
  files (snd (save_and_load s))
  = <["./final_model.rds" := serialize (fst sonar_forest)]> (files s).
Proof.
  unfold save_and_load, sonar_forest, sonar_index. step_recipe.
  destruct (createDataPartition _ _ _) as [idx g1]. step_recipe.
  destruct (randomForest _ _ _ _ _) as [fm g2]. step_recipe.
  rewrite lookup_insert_eq.
  destruct (unserialize (serialize fm)) as [sm |]; step_recipe;
    [| reflexivity].
  destruct (predict_forest _ _ _) as [preds g3]. reflexivity.
Qed.

Lemma save_and_load_workers (s : session) :
  workers (snd (save_and_load s)) = Some 8%nat.
Proof.
  unfold save_and_load. step_recipe.
  destruct (createDataPartition _ _ _) as [idx g1]. step_recipe.
  destruct (randomForest _ _ _ _ _) as [fm g2]. step_recipe.
  rewrite lookup_insert_eq.
  destruct (unserialize (serialize fm)) as [sm |]; step_recipe;
    [| reflexivity].
  destruct (predict_forest _ _ _) as [preds g3]. reflexivity.
Qed.

Lemma make_predictions_frame (s : session) :
  files (snd (make_predictions s)) = files s
  ∧ workers (snd (make_predictions s)) = workers s.
Proof.
  unfold make_predictions. step_recipe.
  destruct (createDataPartition _ _ _) as [idx g1]. step_recipe.
  destruct (train _ _ _ _ _ _ _ _) as [fit g2]. step_recipe.
  destruct (predict_train _ _ _) as [preds g3]. split; reflexivity.
Qed.

Lemma standalone_model_frame (s : session) :
  files (snd (standalone_model s)) = files s
  ∧ workers (snd (standalone_model s)) = workers s.
Proof.
  unfold standalone_model. step_recipe.
  destruct (createDataPartition _ _ _) as [idx g1]. step_recipe.
  destruct (train _ _ _ _ _ _ _ _) as [fit g2]. step_recipe.
  destruct (randomForest _ _ _ _ _) as [fm g3]. step_recipe.
  destruct (predict_forest _ _ _) as [preds g4]. split; reflexivity.
Qed.



(** C8, as the code has it: the scripts implement no concurrency of their
    own and whatever runs in parallel runs inside the libraries, but
    recipe 3 does steer it: after it has run, an eight-worker doMC backend
    is registered, whatever was registered before; recipes 1 and 2 leave the
    registered backend as they found it. *)
Theorem parallel_backend_registered_by_recipe_3 (s : session) :
  workers (snd (save_and_load s)) = Some 8%nat
  ∧ workers (snd (make_predictions s)) = workers s
  ∧ workers (snd (standalone_model s)) = workers s.
Proof.
  split; [apply save_and_load_workers |].
  split; [apply make_predictions_frame | apply standalone_model_frame].
Qed.

End recipes.

(** ** The Keras text-generation notebook *)

Ltac step_keras :=
  cbv beta iota delta
    [mbind mret script_bind script_ret bind ret call modify
     keras.py keras.add keras.compile keras.fit keras.on_epoch_end
     keras.Sequential python.read_file python.write_file python.print];
  cbn [python.np_random python.stdout python.figures python.disk
       keras.layers keras.net keras.filepath keras.best fst snd].

Section text_generation.
Context `{NumpyRandom} `{Formatting} `{Keras}.
Local Open Scope nat_scope.
Import python keras text_generation_notebook.

Lemma list_ascii_length (s : string) :
  length (list_ascii_of_string s) = String.length s.
Proof. induction s as [|c s IH]; simpl; [reflexivity | now rewrite IH]. Qed.

Lemma lower_length (text : list ascii) : length (lower text) = length text.
Proof. unfold lower. apply length_map. Qed.

(** *** Every character of the text has a code *)

Lemma elem_of_sorted_chars (raw_text : list ascii) (c : ascii) :
  c ∈ sorted_chars raw_text ↔ c ∈ raw_text.
Proof.
  unfold sorted_chars. rewrite merge_sort_Permutation.
  apply elem_of_remove_dups.
Qed.

Lemma foldl_insert_is_Some (pairs : list (nat * ascii)) (d : gmap ascii nat)
    (c : ascii) :
  is_Some (d !! c) ∨ (∃ i, (i, c) ∈ pairs) →
  is_Some (foldl (λ d ic, <[ic.2 := ic.1]> d) d pairs !! c).
Proof.
  revert d. induction pairs as [|[j a] pairs IH]; intros d Hc; simpl.
  - destruct Hc as [Hd | [i Hi]]; [exact Hd | inversion Hi].
  - apply IH. destruct Hc as [Hd | [i Hi]].
    + left. destruct (decide (a = c)) as [-> | Hne].
      * rewrite lookup_insert_eq. eauto.
      * now rewrite lookup_insert_ne.
    + apply elem_of_cons in Hi as [Heq | Hin].
      * left. inversion Heq; subst. rewrite lookup_insert_eq. eauto.
      * right. eauto.
Qed.

Lemma char_to_int_total (raw_text : list ascii) (c : ascii) :
  c ∈ raw_text →
  is_Some (char_to_int_of (sorted_chars raw_text) !! c).
Proof.
  intros Hc. apply elem_of_sorted_chars in Hc.
  apply list_elem_of_lookup in Hc as [i Hi].
  unfold char_to_int_of. apply foldl_insert_is_Some. right. exists i.
  now apply (elem_of_lookup_imap_2 (λ i c, (i, c))).
Qed.

Lemma mapM_lookup_char (d : gmap ascii nat) (l : list ascii) :
  Forall (λ c, is_Some (d !! c)) l →
  ∃ xs, mapM (lookup_char d) l = inr xs ∧ length xs = length l.
Proof.
  induction 1 as [|c l [i Hi] _ (xs & Hxs & Hlen)]; simpl.
  - exists []. split; reflexivity.
  - exists (i :: xs).
    assert (Hc : lookup_char d c = inr i)
      by (unfold lookup_char; now rewrite Hi).
    rewrite Hc. unfold mbind at 1, outcome_bind at 1. rewrite Hxs.
    split; [reflexivity | simpl; now rewrite Hlen].
Qed.

(** *** The loop that cuts the text into patterns never fails *)

Lemma slice_length (raw_text : list ascii) (i : nat) :
  i + seq_length ≤ length raw_text →
  length (slice raw_text i (i + seq_length)) = seq_length.
Proof.
  intros Hi. unfold slice. rewrite length_take, length_drop. lia.
Qed.

Lemma pattern_step_ok (raw_text : list ascii) (data : list (list nat) * list nat)
    (i : nat) :
  i + seq_length < length raw_text →
  ∃ xs y,
    pattern_step raw_text (char_to_int_of (sorted_chars raw_text)) data i
    = inr (data.1 ++ [xs], data.2 ++ [y])
    ∧ length xs = seq_length.
Proof.
  intros Hi. unfold pattern_step, char_at.
  destruct (lookup_lt_is_Some_2 raw_text (i + seq_length) Hi) as [c Hc].
  rewrite Hc. simpl.
  destruct (mapM_lookup_char (char_to_int_of (sorted_chars raw_text))
              (slice raw_text i (i + seq_length))) as (xs & Hxs & Hlen).
  { apply Forall_forall. intros a Ha. apply char_to_int_total.
    unfold slice in Ha.
    apply list_elem_of_lookup in Ha as [j Hj].
    apply lookup_take_Some in Hj as [Hj _]. rewrite lookup_drop in Hj.
    apply list_elem_of_lookup. eauto. }
  rewrite Hxs. simpl.
  destruct (char_to_int_total raw_text c) as [y Hy].
  { apply list_elem_of_lookup. eauto. }
  unfold lookup_char. rewrite Hy. simpl.
  exists xs, y. split; [reflexivity |].
  rewrite Hlen. apply slice_length. lia.
Qed.

Lemma patterns_ok (raw_text : list ascii) (n start : nat)
    (data : list (list nat) * list nat) :
  (n = 0 ∨ start + n + seq_length ≤ length raw_text) →
  Forall (λ row, length row = seq_length) data.1 →
  ∃ dataX dataY,
    for_in (pattern_step raw_text (char_to_int_of (sorted_chars raw_text)))
           (seq start n) data
    = inr (dataX, dataY)
    ∧ length dataX = length data.1 + n
    ∧ length dataY = length data.2 + n
    ∧ Forall (λ row, length row = seq_length) dataX.
Proof.
  revert start data. induction n as [|n IH]; intros start data Hn Hrows; simpl.
  - exists data.1, data.2. destruct data. repeat split; auto.
  - destruct (pattern_step_ok raw_text data start) as (xs & y & Hstep & Hxs);
      [lia |].
    rewrite Hstep. simpl.
    destruct (IH (S start) (data.1 ++ [xs], data.2 ++ [y]))
      as (dataX & dataY & Hloop & HlX & HlY & HrowsX).
    { destruct n; [now left | right; lia]. }
    { simpl. apply Forall_app. split; [exact Hrows | now repeat constructor]. }
    rewrite Hloop. exists dataX, dataY. simpl in HlX, HlY.
    rewrite length_app in HlX, HlY. simpl in HlX, HlY.
    repeat split; auto; lia.
Qed.

(** *** Training and its checkpoints *)

Lemma only_checkpoints_written_refl (d : gmap string string) :
  only_checkpoints_written d d.
Proof. intros path. now left. Qed.

Lemma only_checkpoints_written_trans (d1 d2 d3 : gmap string string) :
  only_checkpoints_written d1 d2 → only_checkpoints_written d2 d3 →
  only_checkpoints_written d1 d3.
Proof.
  intros H12 H23 path.
  destruct (H23 path) as [Hsame | Hck]; [| now right].
  destruct (H12 path) as [Hsame' | (e & l & n & -> & Hn)].
  - left. congruence.
  - right. exists e, l, n. split; [reflexivity | congruence].
Qed.

Lemma only_checkpoints_written_save (d : gmap string string) (epoch : nat)
    (loss : R) (n : network) :
  only_checkpoints_written d (<[checkpoint_name epoch loss := save_model n]> d).
Proof.
  intros path. destruct (decide (checkpoint_name epoch loss = path)) as [<- | Hne].
  - right. exists epoch, loss, n. split; [reflexivity | apply lookup_insert_eq].
  - left. now apply lookup_insert_ne.
Qed.

Lemma fit_from_spec (X : list (list (list R))) (y : list (list R))
    (batch_size remaining : nat) :
  ∀ (epoch : nat) (cb : ModelCheckpoint) (m : model) (k : kernel) (b : backend),
    filepath cb = checkpoint_name →
    ∃ m' cb' k' b',
      fit_from X y batch_size epoch remaining cb m (k, b)
      = (inr (m', cb'), (k', b'))
      ∧ layers m' = layers m
      ∧ only_checkpoints_written (disk k) (disk k')
      ∧ (best cb = None → remaining ≠ 0 →
         ∃ loss n, disk k' !! checkpoint_name (epoch + 1) loss
                   = Some (save_model n)).
Proof.
  induction remaining as [|remaining IH]; intros epoch cb m k b Hpath.
  - exists m, cb, k, b. simpl. unfold mret, script_ret, ret.
    repeat split; auto using only_checkpoints_written_refl. congruence.
  - simpl. step_keras.
    destruct (train_epoch X y batch_size (net m) b) as [[n loss] b1].
    step_keras. rewrite Hpath.
    destruct (improved loss (best cb)) eqn:Himp; step_keras.
    + edestruct (IH (S epoch) (Checkpoint checkpoint_name (Some loss))
                   (Model (layers m) n)) as (m' & cb' & k' & b' & Hrun & Hl & Hw & _);
        [reflexivity |].
      rewrite Hrun. exists m', cb', k', b'.
      cbn [disk] in Hw.
      split; [reflexivity |]. split; [exact Hl |]. split.
      * eapply only_checkpoints_written_trans;
          [apply only_checkpoints_written_save | exact Hw].
      * intros _ _.
        destruct (Hw (checkpoint_name (epoch + 1) loss))
          as [Hsame | (e & l & n' & _ & Hn')].
        -- rewrite lookup_insert_eq in Hsame. eauto.
        -- eauto.
    + edestruct (IH (S epoch) cb (Model (layers m) n))
        as (m' & cb' & k' & b' & Hrun & Hl & Hw & _); [exact Hpath |].
      rewrite Hrun. exists m', cb', k', b'.
      split; [reflexivity |]. split; [exact Hl |]. split; [exact Hw |].
      intros Hbest _. rewrite Hbest in Himp. discriminate.
Qed.

Lemma reshape_ok (dataX : list (list nat)) :
  Forall (λ row, length row = seq_length) dataX →
  reshape dataX (length dataX) seq_length
  = inr (map (map (λ v, [INR v])) dataX).
Proof. intros Hrows. unfold reshape. now rewrite decide_True. Qed.

Lemma to_categorical_ok (dataY : list nat) :
  dataY ≠ [] → ∃ y, to_categorical dataY = inr y.
Proof. destruct dataY; [congruence | eauto]. Qed.

Lemma training_script_spec (k : kernel) (b : backend) (text : string) :
  disk k !! "wonderland.txt" = Some text →
  seq_length < String.length text →
  ∃ m cb k' b' classes,
    training_script (k, b) = (inr (m, cb), (k', b'))
    ∧ layers m = [LSTM 256 (seq_length, 1); Dropout 0.2; Dense classes "softmax"]
    ∧ only_checkpoints_written (disk k) (disk k')
    ∧ ∃ loss n, disk k' !! checkpoint_name 1 loss = Some (save_model n).
Proof.
  intros Hfile Hlong.
  set (raw_text := lower (list_ascii_of_string text)).
  assert (Hraw : seq_length < length raw_text)
    by (unfold raw_text; now rewrite lower_length, list_ascii_length).
  destruct (patterns_ok raw_text (length raw_text - seq_length) 0 ([], []))
    as (dataX & dataY & Hloop & HlX & HlY & Hrows);
    [right; lia | constructor |].
  simpl in HlX, HlY.
  destruct (to_categorical_ok dataY) as [y Hy].
  { intros ->. simpl in HlY. lia. }
  unfold training_script. step_keras. rewrite Hfile. step_keras.
  fold raw_text. rewrite Hloop. step_keras.
  rewrite (reshape_ok dataX Hrows). step_keras. rewrite Hy. step_keras.
  destruct (add_layer _ _ b) as [n1 b1]. step_keras.
  destruct (add_layer _ _ b1) as [n2 b2]. step_keras.
  destruct (add_layer _ _ b2) as [n3 b3]. step_keras.
  match goal with
  | |- context [fit_from ?X ?Y ?bs ?e ?r ?cb ?m (?k0, ?b0)] =>
      destruct (fit_from_spec X Y bs r e cb m k0 b0 eq_refl)
        as (m' & cb' & k' & b' & Hrun & Hl & Hw & Hfirst)
  end.
  rewrite Hrun. exists m', cb', k', b'. eexists.
  split; [reflexivity |]. split; [rewrite Hl; reflexivity |].
  split; [exact Hw |]. apply Hfirst; [reflexivity | discriminate].
Qed.

(** C7: the repository contains an LSTM-based character-level text
    generator whose run produces checkpoint files through the library's
    checkpoint callback: given the book as wonderland.txt with more than
    seq_length characters, the training listing runs to completion, the
    model it builds is an LSTM layer followed by dropout and a softmax
    layer, and the disk then holds, under a weights-improvement name for
    epoch 1, a model saved by the ModelCheckpoint callback. *)
Theorem lstm_training_emits_checkpoints (k : kernel) (b : backend)
    (text : string) :
  disk k !! "wonderland.txt" = Some text →
  seq_length < String.length text →
  ∃ m cb k' b',
    training_script (k, b) = (inr (m, cb), (k', b'))
    ∧ (∃ units shape, LSTM units shape ∈ layers m)
    ∧ ∃ loss n,
        disk k' !! ("weights-improvement-01-" +:+ fmt_f 4 loss +:+ ".hdf5")
        = Some (save_model n).
Proof.
  intros Hfile Hlong.
  destruct (training_script_spec k b text Hfile Hlong)
    as (m & cb & k' & b' & classes & Hrun & Hl & _ & loss & n & Hsaved).
  exists m, cb, k', b'. split; [exact Hrun |]. split.
  - exists 256, (seq_length, 1). rewrite Hl. apply list_elem_of_here.
  - exists loss, n. exact Hsaved.
Qed.

End text_generation.

(** ** What the scripts do to the disk *)

Section persistence.
Context `{NumpyRandom} `{Formatting} `{SciPyStats} `{Keras} `{RLibrary}.
Import python keras text_generation_notebook r_session finalize_recipes.

Lemma rank_examples_keep_disk (k : kernel) :
  disk (snd (rank_correlation_notebook.scatter_example k)) = disk k
  ∧ disk (snd (rank_correlation_notebook.spearman_example k)) = disk k
  ∧ disk (snd (rank_correlation_notebook.kendall_example k)) = disk k.
Proof.
  repeat split.
  all: unfold rank_correlation_notebook.scatter_example,
         rank_correlation_notebook.spearman_example,
         rank_correlation_notebook.kendall_example,
         rank_correlation_notebook.interpret.
  all: step_script.
  all: destruct (draw 1000 (seed_state 1)) as [r1 g1]; step_script.
  all: destruct (draw 1000 g1) as [r2 g2]; step_script.
  all: destruct (numpy.add _ _) as [e | d2]; try reflexivity.
  all: try (destruct (scipy_stats.spearmanr _ _) as [e | [c pv]];
            try reflexivity).
  all: try (destruct (scipy_stats.kendalltau _ _) as [e | [c pv]];
            try reflexivity).
  all: destruct (decide _); reflexivity.
Qed.

Lemma covariance_cells_keep_disk (k : kernel) :
  disk (snd (covariance_notebook.covariance_cell k)) = disk k
  ∧ disk (snd (covariance_notebook.corrcoef_cell k)) = disk k
  ∧ disk (snd (covariance_notebook.covariance_matrix_cell k)) = disk k.
Proof.
  repeat split.
  all: unfold covariance_notebook.covariance_cell,
         covariance_notebook.corrcoef_cell,
         covariance_notebook.covariance_matrix_cell.
  all: step_script.
  all: try (destruct (numpy.cov _ _) as [e | c]; reflexivity).
  all: destruct (numpy.corrcoef _ _) as [e | c]; reflexivity.
Qed.

Lemma training_script_writes_checkpoints_only (k : kernel) (b : backend) :
  only_checkpoints_written (disk k) (disk (fst (snd (training_script (k, b))))).
Proof.
  unfold training_script. step_keras.
  destruct (disk k !! "wonderland.txt") as [text |]; step_keras;
    [| apply only_checkpoints_written_refl].
  destruct (for_in _ _ _) as [e | [dataX dataY]]; step_keras;
    [apply only_checkpoints_written_refl |].
  destruct (reshape _ _ _) as [e | X]; step_keras;
    [apply only_checkpoints_written_refl |].
  destruct (to_categorical _) as [e | y]; step_keras;
    [apply only_checkpoints_written_refl |].
  destruct (add_layer _ _ b) as [n1 b1]. step_keras.
  destruct (add_layer _ _ b1) as [n2 b2]. step_keras.
  destruct (add_layer _ _ b2) as [n3 b3]. step_keras.
  match goal with
  | |- context [fit_from ?X ?Y ?bs ?e ?r ?cb ?m (?k0, ?b0)] =>
      destruct (fit_from_spec X Y bs r e cb m k0 b0 eq_refl)
        as (m' & cb' & k' & b' & Hrun & _ & Hw & _)
  end.
  rewrite Hrun. exact Hw.
Qed.

(** C5, as the code has it: the scripts work on in-memory arrays and data
    frames and define no persistent format of their own, and what they leave
    on disk is written by a library's own persistence routine: recipe 3
    changes the disk at ./final_model.rds, where saveRDS leaves the
    serialized final_model, and nowhere else; the LSTM training listing
    changes it only at checkpoint names, where the ModelCheckpoint callback
    leaves saved models; recipes 1 and 2, the complete examples of the
    rank-correlation notebook and the covariance cells leave the disk
    exactly as they found it. *)
Theorem only_library_persistence_touches_disk
    (s : session) (k : kernel) (b : backend) :
  files (snd (save_and_load s)) !! "./final_model.rds"
    = Some (serialize (fst sonar_forest))
  ∧ (∀ path, path ≠ "./final_model.rds" →
       files (snd (save_and_load s)) !! path = files s !! path)
  ∧ only_checkpoints_written (disk k) (disk (fst (snd (training_script (k, b)))))
  ∧ files (snd (make_predictions s)) = files s
  ∧ files (snd (standalone_model s)) = files s
  ∧ disk (snd (rank_correlation_notebook.scatter_example k)) = disk k
  ∧ disk (snd (rank_correlation_notebook.spearman_example k)) = disk k
  ∧ disk (snd (rank_correlation_notebook.kendall_example k)) = disk k
  ∧ disk (snd (covariance_notebook.covariance_cell k)) = disk k
  ∧ disk (snd (covariance_notebook.corrcoef_cell k)) = disk k
  ∧ disk (snd (covariance_notebook.covariance_matrix_cell k)) = disk k.
Proof.
  rewrite save_and_load_files.
  split; [apply lookup_insert_eq |].
  split; [intros path Hpath; now apply lookup_insert_ne |].
  split; [apply training_script_writes_checkpoints_only |].
  split; [apply make_predictions_frame |].
  split; [apply standalone_model_frame |].
  pose proof (rank_examples_keep_disk k) as (? & ? & ?).
  pose proof (covariance_cells_keep_disk k) as (? & ? & ?).
  repeat split; assumption.
Qed.

End persistence.

(** ** The theorems at concrete inputs *)

Section concrete_runs.
Import sample_runtime.
#[local] Existing Instance counting_random.
#[local] Existing Instance plain_formatting.
#[local] Existing Instance flat_stats.
#[local] Existing Instance epoch_counter.
#[local] Existing Instance tabular_r.
Local Open Scope R_scope.








Lemma lstm_training_emits_checkpoints_witness :
  python.disk kernel_with_book !! "wonderland.txt" = Some book_opening
  ∧ (text_generation_notebook.seq_length < String.length book_opening)%nat
  ∧ ∃ m cb k' b',
      text_generation_notebook.training_script (kernel_with_book, tt)
      = (inr (m, cb), (k', b'))
      ∧ (∃ units shape, LSTM units shape ∈ keras.layers m)
      ∧ ∃ loss n,
          python.disk k' !! ("weights-improvement-01-" +:+ fmt_f 4 loss +:+ ".hdf5")
          = Some (save_model n).
Proof.
  assert (Hfile : python.disk kernel_with_book !! "wonderland.txt"
                  = Some book_opening) by reflexivity.
  assert (Hlong : (text_generation_notebook.seq_length
                   < String.length book_opening)%nat)
    by (vm_compute; lia).
  split; [exact Hfile |]. split; [exact Hlong |].
  exact (lstm_training_emits_checkpoints kernel_with_book tt book_opening
           Hfile Hlong).
Defined.


(** C5, as the claim states it, fails on recipe 3: run on an empty disk, it
    leaves a disk that is not empty. *)
Lemma save_and_load_creates_a_file :
  r_session.files (snd (finalize_recipes.save_and_load fresh_session))
  ≠ r_session.files fresh_session.
Proof.
  rewrite save_and_load_files. intros Heq.
  apply (f_equal (λ m, m !! "./final_model.rds")) in Heq.
  rewrite lookup_insert_eq in Heq. discriminate Heq.
Qed.

(** C8, as the claim states it, fails on recipe 3: run in a session with no
    parallel backend, it leaves one registered. *)
Lemma save_and_load_registers_workers :
  r_session.workers (snd (finalize_recipes.save_and_load fresh_session))
  ≠ r_session.workers fresh_session.
Proof. rewrite save_and_load_workers. discriminate. Qed.

End concrete_runs.

(** ** The patterns cut from the text *)

Section pattern_facts.
Local Open Scope nat_scope.
Import text_generation_notebook text_generation_data.

Lemma lookup_map_Some {A B : Type} (f : A → B) (l : list A) (i : nat) (y : B) :
  map f l !! i = Some y → ∃ x, l !! i = Some x ∧ y = f x.
Proof.
  change (map f l) with (f <$> l). intros Hy.
  apply list_lookup_fmap_Some in Hy as (x & Hx & ->). eauto.
Qed.

Lemma elem_of_map {A B : Type} (f : A → B) (l : list A) (y : B) :
  y ∈ map f l → ∃ x, y = f x ∧ x ∈ l.
Proof.
  change (map f l) with (f <$> l). intros Hy.
  apply list_elem_of_fmap in Hy as (x & -> & Hx). eauto.
Qed.

Lemma lookup_char_code (d : gmap ascii nat) (c : ascii) :
  is_Some (d !! c) → lookup_char d c = inr (code_of d c).
Proof.
  intros [i Hi]. unfold lookup_char, code_of. now rewrite Hi.
Qed.

Lemma mapM_lookup_char_codes (d : gmap ascii nat) (l : list ascii) :
  Forall (λ c, is_Some (d !! c)) l →
  mapM (lookup_char d) l = inr (map (code_of d) l).
Proof.
  induction 1 as [|c l Hc _ IH]; simpl; [reflexivity |].
  rewrite (lookup_char_code d c Hc).
  unfold mbind at 1, outcome_bind at 1. rewrite IH. reflexivity.
Qed.

Lemma slice_subset (raw_text : list ascii) (i j : nat) (c : ascii) :
  c ∈ slice raw_text i j → c ∈ raw_text.
Proof.
  unfold slice. intros Hc.
  apply list_elem_of_lookup in Hc as [k Hk].
  apply lookup_take_Some in Hk as [Hk _]. rewrite lookup_drop in Hk.
  apply list_elem_of_lookup. eauto.
Qed.

Lemma pattern_step_closed (raw_text : list ascii)
    (data : list (list nat) * list nat) (i : nat) :
  i + seq_length < length raw_text →
  pattern_step raw_text (char_to_int_of (sorted_chars raw_text)) data i
  = inr (data.1 ++ [window raw_text i], data.2 ++ [target raw_text i]).
Proof.
  intros Hi. unfold pattern_step, char_at, window, target.
  destruct (lookup_lt_is_Some_2 raw_text (i + seq_length) Hi) as [c Hc].
  rewrite Hc. simpl.
  rewrite mapM_lookup_char_codes.
  2:{ apply Forall_forall. intros a Ha. apply char_to_int_total.
      eapply slice_subset, Ha. }
  simpl. rewrite lookup_char_code; [reflexivity |].
  apply char_to_int_total, list_elem_of_lookup. eauto.
Qed.

Lemma for_in_closed (raw_text : list ascii) (n start : nat)
    (data : list (list nat) * list nat) :
  (n = 0 ∨ start + n + seq_length ≤ length raw_text) →
  for_in (pattern_step raw_text (char_to_int_of (sorted_chars raw_text)))
         (seq start n) data
  = inr (data.1 ++ map (window raw_text) (seq start n),
         data.2 ++ map (target raw_text) (seq start n)).
Proof.
  revert start data. induction n as [|n IH]; intros start data Hn; simpl.
  - rewrite !app_nil_r. now destruct data.
  - rewrite pattern_step_closed by lia. simpl.
    rewrite IH by (destruct n; [now left | right; lia]). simpl.
    now rewrite <- !app_assoc.
Qed.

Lemma prepare_patterns_closed (raw_text : list ascii) :
  prepare_patterns raw_text
  = inr (map (window raw_text) (seq 0 (length raw_text - seq_length)),
         map (target raw_text) (seq 0 (length raw_text - seq_length))).
Proof.
  unfold prepare_patterns. cbv zeta. rewrite for_in_closed; [reflexivity |].
  destruct (decide (length raw_text ≤ seq_length)); [left | right]; lia.
Qed.

Lemma window_length (raw_text : list ascii) (i : nat) :
  i < length raw_text - seq_length → length (window raw_text i) = seq_length.
Proof.
  intros Hi. unfold window. rewrite length_map. apply slice_length. lia.
Qed.

Lemma window_lookup (raw_text : list ascii) (i j v : nat) :
  window raw_text i !! j = Some v →
  ∃ c, raw_text !! (i + j) = Some c
       ∧ char_to_int_of (sorted_chars raw_text) !! c = Some v.
Proof.
  unfold window, slice. intros Hv.
  apply lookup_map_Some in Hv as (c & Hc & ->).
  apply lookup_take_Some in Hc as [Hc _]. rewrite lookup_drop in Hc.
  exists c. split; [exact Hc |].
  destruct (char_to_int_total raw_text c) as [v Hv].
  { apply list_elem_of_lookup. eauto. }
  unfold code_of. now rewrite Hv.
Qed.

(** X1: the loop makes one pattern for every character that has [seq_length]
    characters before it, none when the text is that short or shorter, and
    never raises; each input row has [seq_length] codes. *)
Theorem patterns_count_and_shape (raw_text : list ascii) :
  ∃ dataX dataY,
    prepare_patterns raw_text = inr (dataX, dataY)
    ∧ length dataX = length raw_text - seq_length
    ∧ length dataY = length raw_text - seq_length
    ∧ Forall (λ row, length row = seq_length) dataX.
Proof.
  eexists _, _. split; [apply prepare_patterns_closed |].
  rewrite !length_map, !length_seq. repeat split.
  apply Forall_forall. intros row Hrow.
  apply elem_of_map in Hrow as (i & -> & Hi).
  apply elem_of_seq in Hi. apply window_length. lia.
Qed.

(** X2: pattern [i] is the window of the text that starts at character [i]:
    entry [j] of [dataX[i]] is the code of [raw_text[i + j]], and [dataY[i]]
    is the code of the character right after the window. *)
Theorem patterns_are_sliding_windows (raw_text : list ascii) :
  ∃ dataX dataY,
    prepare_patterns raw_text = inr (dataX, dataY)
    ∧ (∀ i j row v, dataX !! i = Some row → row !! j = Some v →
         ∃ c, raw_text !! (i + j) = Some c
              ∧ char_to_int_of (sorted_chars raw_text) !! c = Some v)
    ∧ (∀ i v, dataY !! i = Some v →
         ∃ c, raw_text !! (i + seq_length) = Some c
              ∧ char_to_int_of (sorted_chars raw_text) !! c = Some v).
Proof.
  eexists _, _. split; [apply prepare_patterns_closed |]. split.
  - intros i j row v Hrow Hv.
    apply lookup_map_Some in Hrow as (i' & Hi' & ->).
    apply lookup_seq in Hi' as [-> _]. simpl in Hv.
    now apply window_lookup.
  - intros i v Hv.
    apply lookup_map_Some in Hv as (i' & Hi' & ->).
    apply lookup_seq in Hi' as [-> Hi]. simpl. unfold target.
    destruct (lookup_lt_is_Some_2 raw_text (i + seq_length)) as [c Hc]; [lia |].
    rewrite Hc. simpl. exists c. split; [reflexivity |].
    destruct (char_to_int_total raw_text c) as [v Hv].
    { apply list_elem_of_lookup. eauto. }
    unfold code_of. now rewrite Hv.
Qed.

Lemma take_drop_shift {A : Type} (l : list A) (n : nat) (x : A) :
  l !! S n = Some x → take (S n) (drop 1 l) = drop 1 (take (S n) l) ++ [x].
Proof.
  destruct l as [|a t]; [discriminate |]. simpl. intros Hx.
  rewrite drop_0. now apply take_S_r.
Qed.

Lemma window_shift (raw_text : list ascii) (i : nat) :
  S i + seq_length < length raw_text →
  window raw_text (S i) = drop 1 (window raw_text i) ++ [target raw_text i].
Proof.
  intros Hi. unfold window, target, slice.
  destruct (lookup_lt_is_Some_2 raw_text (i + seq_length)) as [c Hc]; [lia |].
  rewrite Hc. simpl from_option.
  replace (S i + seq_length - S i) with seq_length by lia.
  replace (i + seq_length - i) with seq_length by lia.
  replace (drop (S i) raw_text) with (drop 1 (drop i raw_text))
    by (rewrite drop_drop; f_equal; lia).
  change seq_length with (S 99).
  rewrite (take_drop_shift (drop i raw_text) 99 c).
  2:{ rewrite lookup_drop. exact Hc. }
  rewrite map_app, <- !skipn_map. reflexivity.
Qed.

(** X3: consecutive patterns overlap: the next input row is the current one
    without its first code, followed by the current target.  This is the
    update [pattern.append(index); pattern = pattern[1:len(pattern)]] that
    the generation loop applies to its window. *)
Theorem consecutive_patterns_shift_by_one (raw_text : list ascii) :
  ∃ dataX dataY,
    prepare_patterns raw_text = inr (dataX, dataY)
    ∧ ∀ i row next v,
        dataX !! i = Some row → dataX !! S i = Some next →
        dataY !! i = Some v →
        next = drop 1 row ++ [v].
Proof.
  eexists _, _. split; [apply prepare_patterns_closed |].
  intros i row next v Hrow Hnext Hv.
  apply lookup_map_Some in Hrow as (i1 & Hi1 & ->).
  apply lookup_map_Some in Hnext as (i2 & Hi2 & ->).
  apply lookup_map_Some in Hv as (i3 & Hi3 & ->).
  apply lookup_seq in Hi1 as [-> _]. apply lookup_seq in Hi2 as [-> Hn].
  apply lookup_seq in Hi3 as [-> _]. simpl.
  apply window_shift. lia.
Qed.

End pattern_facts.

(** ** The vocabulary and its two dictionaries *)

Section vocabulary_facts.
Local Open Scope nat_scope.
Import text_generation_notebook text_generation_data.

Lemma char_le_transitive : Transitive char_le.
Proof. intros a b c. unfold char_le. lia. Qed.

Lemma char_le_total : Total char_le.
Proof. intros a b. unfold char_le. lia. Qed.

Lemma nat_of_ascii_inj (a b : ascii) : nat_of_ascii a = nat_of_ascii b → a = b.
Proof.
  intros Hab. rewrite <- (ascii_nat_embedding a), <- (ascii_nat_embedding b).
  now rewrite Hab.
Qed.

Lemma sorted_chars_NoDup (raw_text : list ascii) : NoDup (sorted_chars raw_text).
Proof.
  unfold sorted_chars. rewrite merge_sort_Permutation. apply NoDup_remove_dups.
Qed.

Lemma remove_dups_shorter (l : list ascii) :
  length (remove_dups l) ≤ length l.
Proof.
  induction l as [|x l IH]; simpl; [lia |].
  destruct (decide_rel elem_of x l); simpl; lia.
Qed.

Lemma sorted_lookup_le (l : list ascii) (i j : nat) (a b : ascii) :
  StronglySorted char_le l → i < j → l !! i = Some a → l !! j = Some b →
  char_le a b.
Proof.
  intros Hs. revert i j. induction Hs as [|x l Hs IH Hx]; intros i j Hij Ha Hb.
  - discriminate.
  - destruct j as [|j]; [lia |]. simpl in Hb. destruct i as [|i].
    + simpl in Ha. injection Ha as ->.
      eapply (proj1 (Forall_forall _ _) Hx), list_elem_of_lookup_2, Hb.
    + simpl in Ha. apply (IH i j); [lia | assumption | assumption].
Qed.

(** X4: [chars] holds exactly the characters of the text, each once, in
    strictly increasing order of their codes; so the vocabulary is never
    larger than the text. *)
Theorem chars_sorted_without_duplicates (raw_text : list ascii) :
  let chars := sorted_chars raw_text in
  (∀ c, c ∈ chars ↔ c ∈ raw_text)
  ∧ NoDup chars
  ∧ (∀ i j a b, i < j → chars !! i = Some a → chars !! j = Some b →
       nat_of_ascii a < nat_of_ascii b)
  ∧ length chars ≤ length raw_text.
Proof.
  cbv zeta. split; [apply elem_of_sorted_chars |].
  split; [apply sorted_chars_NoDup |]. split.
  - intros i j a b Hij Ha Hb.
    assert (Hle : char_le a b).
    { eapply (sorted_lookup_le _ i j); eauto.
      exact (@StronglySorted_merge_sort _ char_le _ char_le_transitive
               char_le_total (remove_dups raw_text)). }
    assert (Hne : a ≠ b).
    { intros ->.
      pose proof (NoDup_lookup _ i j b (sorted_chars_NoDup raw_text) Ha Hb).
      lia. }
    unfold char_le in Hle.
    destruct (decide (nat_of_ascii a = nat_of_ascii b)) as [Heq | Hneq];
      [now apply nat_of_ascii_inj in Heq | lia].
  - unfold sorted_chars. rewrite merge_sort_Permutation.
    apply remove_dups_shorter.
Qed.

Lemma char_to_int_foldl (l : list ascii) (k : nat) (d : gmap ascii nat)
    (c : ascii) :
  NoDup l →
  (∀ i, l !! i = Some c →
     foldl (λ d ic, <[ic.2 := ic.1]> d) d (imap (λ i c, (k + i, c)) l) !! c
     = Some (k + i))
  ∧ (c ∉ l →
     foldl (λ d ic, <[ic.2 := ic.1]> d) d (imap (λ i c, (k + i, c)) l) !! c
     = d !! c).
Proof.
  intros Hnd. revert k d. induction Hnd as [|x l Hx Hnd IH]; intros k d.
  - split; [intros i Hi; discriminate | reflexivity].
  - rewrite imap_cons. simpl.
    rewrite (imap_ext _ (λ i c, (S k + i, c)))
      by (intros; unfold compose; f_equal; lia).
    destruct (IH (S k) (<[x := k + 0]> d)) as [IH1 IH2]. split.
    + intros [|i] Hi; simpl in Hi.
      * injection Hi as ->. rewrite IH2 by exact Hx. apply lookup_insert_eq.
      * rewrite (IH1 i Hi). f_equal. lia.
    + intros Hc. apply not_elem_of_cons in Hc as [Hcx Hcl].
      rewrite IH2 by exact Hcl. now apply lookup_insert_ne.
Qed.

Lemma char_to_int_lookup (chars : list ascii) (c : ascii) (i : nat) :
  NoDup chars →
  char_to_int_of chars !! c = Some i ↔ chars !! i = Some c.
Proof.
  intros Hnd. unfold char_to_int_of.
  pose proof (char_to_int_foldl chars 0 ∅ c Hnd) as [H1 H2]. simpl in H1, H2.
  split.
  - intros Hi. destruct (decide (c ∈ chars)) as [Hin | Hout].
    + apply list_elem_of_lookup in Hin as [j Hj].
      rewrite (H1 j Hj) in Hi. now injection Hi as ->.
    + rewrite (H2 Hout), lookup_empty in Hi. discriminate.
  - intros Hi. apply (H1 i Hi).
Qed.

Lemma int_to_char_foldl (l : list ascii) (k : nat) (d : gmap nat ascii)
    (j : nat) :
  foldl (λ d ic, <[ic.1 := ic.2]> d) d (imap (λ i c, (k + i, c)) l) !! j
  = if decide (k ≤ j < k + length l) then l !! (j - k) else d !! j.
Proof.
  revert k d. induction l as [|x l IH]; intros k d.
  - simpl. case_decide; [lia | reflexivity].
  - rewrite imap_cons. simpl.
    rewrite (imap_ext _ (λ i c, (S k + i, c)))
      by (intros; unfold compose; f_equal; lia).
    rewrite IH. repeat case_decide; try lia.
    + replace (j - k) with (S (j - S k)) by lia. reflexivity.
    + assert (j = k) as -> by lia. rewrite Nat.add_0_r, lookup_insert_eq.
      now rewrite Nat.sub_diag.
    + rewrite lookup_insert_ne by lia. reflexivity.
Qed.

Lemma int_to_char_lookup (chars : list ascii) (i : nat) :
  int_to_char_of chars !! i = chars !! i.
Proof.
  unfold int_to_char_of.
  pose proof (int_to_char_foldl chars 0 ∅ i) as Hi. simpl in Hi. rewrite Hi.
  case_decide as Hr.
  - now rewrite Nat.sub_0_r.
  - rewrite lookup_empty. symmetry. apply lookup_ge_None. lia.
Qed.

(** X5: the two dictionaries are inverse to each other: [char_to_int] maps the
    characters of the text one-to-one onto [0 .. n_vocab - 1],
    [int_to_char] maps these codes back, and a character that is not in the
    text has no code. *)
Theorem dictionaries_are_inverse (raw_text : list ascii) :
  let chars := sorted_chars raw_text in
  let char_to_int := char_to_int_of chars in
  let int_to_char := int_to_char_of chars in
  let n_vocab := length chars in
  (∀ c i, char_to_int !! c = Some i ↔ int_to_char !! i = Some c)
  ∧ (∀ c, is_Some (char_to_int !! c) ↔ c ∈ raw_text)
  ∧ (∀ i, is_Some (int_to_char !! i) ↔ i < n_vocab)
  ∧ (∀ c i, char_to_int !! c = Some i → i < n_vocab).
Proof.
  cbv zeta. pose proof (sorted_chars_NoDup raw_text) as Hnd.
  assert (Hiff : ∀ c i, char_to_int_of (sorted_chars raw_text) !! c = Some i
                        ↔ int_to_char_of (sorted_chars raw_text) !! i = Some c).
  { intros c i. rewrite int_to_char_lookup. now apply char_to_int_lookup. }
  split; [exact Hiff |]. split; [| split].
  - intros c. split.
    + intros [i Hi]. apply char_to_int_lookup in Hi; [| exact Hnd].
      apply elem_of_sorted_chars, list_elem_of_lookup. eauto.
    + apply char_to_int_total.
  - intros i. rewrite int_to_char_lookup. apply lookup_lt_is_Some.
  - intros c i Hi. apply char_to_int_lookup in Hi; [| exact Hnd].
    eapply lookup_lt_Some, Hi.
Qed.

End vocabulary_facts.

(** ** Lower-casing *)

Section lower_facts.
Local Open Scope nat_scope.
Import text_generation_notebook text_generation_data.

Lemma lower_char_not_upper (c : ascii) : ¬ is_upper (lower_char c).
Proof.
  unfold lower_char, is_upper. cbv zeta. case_decide as Hc; [| exact Hc].
  rewrite nat_ascii_embedding by lia. lia.
Qed.

Lemma lower_char_fixed (c : ascii) : ¬ is_upper c → lower_char c = c.
Proof.
  unfold lower_char, is_upper. cbv zeta. intros Hc. now rewrite decide_False.
Qed.

(** X6: [lower] keeps the length of the text and every character that is not an
    upper-case letter, leaves no upper-case letter behind (so none enters
    the vocabulary), and changes nothing when applied a second time. *)
Theorem lower_leaves_no_upper_case (text : list ascii) :
  length (lower text) = length text
  ∧ (∀ c, c ∈ lower text → ¬ is_upper c)
  ∧ (∀ c, c ∈ sorted_chars (lower text) → ¬ is_upper c)
  ∧ (∀ i c, text !! i = Some c → ¬ is_upper c → lower text !! i = Some c)
  ∧ lower (lower text) = lower text.
Proof.
  assert (Hnone : ∀ c, c ∈ lower text → ¬ is_upper c).
  { intros c Hc. apply elem_of_map in Hc as (a & -> & _).
    apply lower_char_not_upper. }
  split; [apply length_map |]. split; [exact Hnone |]. split; [| split].
  - intros c Hc. apply Hnone. now apply elem_of_sorted_chars.
  - intros i c Hi Hc. unfold lower.
    change (map lower_char text) with (lower_char <$> text).
    rewrite list_lookup_fmap, Hi. simpl. now rewrite lower_char_fixed.
  - unfold lower. rewrite map_map. apply map_ext. intros a.
    apply lower_char_fixed, lower_char_not_upper.
Qed.

End lower_facts.

(** ** The training listing at its edges *)

Section training_edges.
Context `{NumpyRandom} `{Formatting} `{Keras}.
Local Open Scope nat_scope.
Import python keras text_generation_notebook text_generation_data.

Lemma max_below (l : list nat) (n : nat) :
  l ≠ [] → Forall (λ v, v < n) l → S (foldr Nat.max 0 l) ≤ n.
Proof.
  intros Hne Hl. assert (Hn : 0 < n) by (destruct Hl; [congruence | lia]).
  clear Hne. induction Hl as [|v l Hv _ IH]; simpl; lia.
Qed.

Lemma to_categorical_width (dataY : list nat) :
  dataY ≠ [] →
  ∃ y, to_categorical dataY = inr y
       ∧ length (default [] (head y)) = S (foldr Nat.max 0 dataY).
Proof.
  destruct dataY as [|v dataY]; [congruence |]. intros _.
  eexists. split; [reflexivity |]. cbn [map head default].
  unfold Datatypes.id. now rewrite length_map, length_seq.
Qed.

Lemma codes_below_vocabulary (raw_text : list ascii) :
  Forall (Forall (λ v, v < length (sorted_chars raw_text)))
         (map (window raw_text) (seq 0 (length raw_text - seq_length)))
  ∧ Forall (λ v, v < length (sorted_chars raw_text))
           (map (target raw_text) (seq 0 (length raw_text - seq_length))).
Proof.
  assert (Hlt : ∀ c i, char_to_int_of (sorted_chars raw_text) !! c = Some i
                       → i < length (sorted_chars raw_text)).
  { intros c i Hi.
    apply char_to_int_lookup in Hi; [| apply sorted_chars_NoDup].
    eapply lookup_lt_Some, Hi. }
  split.
  - apply Forall_forall. intros row Hrow.
    apply elem_of_map in Hrow as (i & -> & _).
    apply Forall_forall. intros v Hv.
    apply list_elem_of_lookup in Hv as [j Hj].
    apply window_lookup in Hj as (c & _ & Hc). eauto.
  - apply Forall_forall. intros v Hv.
    apply elem_of_map in Hv as (i & -> & Hi). apply elem_of_seq in Hi.
    unfold target.
    destruct (lookup_lt_is_Some_2 raw_text (i + seq_length)) as [c Hc]; [lia |].
    rewrite Hc. simpl.
    destruct (char_to_int_total raw_text c) as [v Hv].
    { apply list_elem_of_lookup. eauto. }
    unfold code_of. rewrite Hv. simpl. eauto.
Qed.

(** X7: every code in [dataX] and [dataY] is below [n_vocab], so dividing by
    [float(n_vocab)] scales the inputs into [0, 1); and when there is at
    least one pattern, the number of classes that [to_categorical] and the
    softmax layer use, [max(dataY) + 1], is at most [n_vocab]. *)
Theorem codes_and_classes_within_vocabulary (raw_text : list ascii) :
  let n_vocab := length (sorted_chars raw_text) in
  ∃ dataX dataY,
    prepare_patterns raw_text = inr (dataX, dataY)
    ∧ Forall (Forall (λ v, v < n_vocab)) dataX
    ∧ Forall (λ v, v < n_vocab) dataY
    ∧ Forall (Forall (λ v, 0 <= INR v / INR n_vocab < 1)%R) dataX
    ∧ (dataY ≠ [] → S (foldr Nat.max 0 dataY) ≤ n_vocab).
Proof.
  cbv zeta. destruct (codes_below_vocabulary raw_text) as [HX HY].
  eexists _, _. split; [apply prepare_patterns_closed |].
  split; [exact HX |]. split; [exact HY |]. split.
  - eapply Forall_impl; [exact HX |]. intros row Hrow.
    eapply Forall_impl; [exact Hrow |]. intros v Hv. simpl in *.
    assert (Hn : (0 < INR (length (sorted_chars raw_text)))%R)
      by (apply lt_0_INR; lia).
    pose proof (pos_INR v) as Hv0. apply lt_INR in Hv.
    split.
    + apply Rmult_le_pos; [exact Hv0 | apply Rlt_le, Rinv_0_lt_compat, Hn].
    + apply Rmult_lt_reg_r with (r := INR (length (sorted_chars raw_text)));
        [exact Hn |].
      unfold Rdiv. rewrite Rmult_assoc, Rinv_l by lra. lra.
  - intros Hne. now apply max_below.
Qed.

(** X9: without wonderland.txt the training listing stops at [open] with an
    IOError: nothing is printed, no model is built and the disk and the
    backend are as before. *)
Theorem training_without_the_book (k : kernel) (b : backend) :
  disk k !! "wonderland.txt" = None →
  training_script (k, b) = (inl (IOError "open"), (k, b)).
Proof.
  intros Hfile. unfold training_script. step_keras. now rewrite Hfile.
Qed.

(** X10: with a book of at most [seq_length] characters the loop makes no
    pattern: the listing prints its three totals, the last one 0, and then
    fails in [to_categorical], which has no maximum to take; no layer is
    created and nothing is written to disk. *)
Theorem training_on_a_short_book (k : kernel) (b : backend) (text : string) :
  disk k !! "wonderland.txt" = Some text →
  String.length text ≤ seq_length →
  ∃ k',
    training_script (k, b) = (inl (ValueError "numpy.max"), (k', b))
    ∧ disk k' = disk k
    ∧ np_random k' = np_random k
    ∧ stdout k'
      = stdout k
        ++ ["Total Characters:  " +:+ pretty (String.length text);
            "Total Vocab:  "
              +:+ pretty (length (sorted_chars (lower (list_ascii_of_string text))));
            "Total Patterns:  0"].
Proof.
  intros Hfile Hshort.
  set (raw_text := lower (list_ascii_of_string text)).
  assert (Hlen : length raw_text = String.length text)
    by (unfold raw_text; now rewrite lower_length, list_ascii_length).
  unfold training_script. step_keras. rewrite Hfile. step_keras.
  fold raw_text. rewrite Hlen.
  replace (String.length text - seq_length) with 0 by lia.
  simpl seq. simpl for_in. step_keras.
  eexists. split; [reflexivity |]. cbn.
  repeat split. now rewrite <- !app_assoc.
Qed.

End training_edges.

(** ** Which epochs leave a checkpoint *)

Section checkpoint_facts.
Context `{NumpyRandom} `{Formatting} `{Keras}.
Import python keras text_generation_notebook text_generation_data
       training_history.

Lemma softmax_layer_shape (k : kernel) (b : backend) (text : string) :
  disk k !! "wonderland.txt" = Some text →
  (seq_length < String.length text)%nat →
  let raw_text := lower (list_ascii_of_string text) in
  ∃ m cb k' b' dataX dataY,
    training_script (k, b) = (inr (m, cb), (k', b'))
    ∧ prepare_patterns raw_text = inr (dataX, dataY)
    ∧ layers m = [LSTM 256 (seq_length, 1%nat); Dropout 0.2;
                  Dense (S (foldr Nat.max 0%nat dataY)) "softmax"].
Proof.
  intros Hfile Hlong raw_text.
  assert (Hraw : (seq_length < length raw_text)%nat)
    by (unfold raw_text; now rewrite lower_length, list_ascii_length).
  pose proof (prepare_patterns_closed raw_text) as Hprep.
  set (dataX := map (window raw_text) _) in Hprep.
  set (dataY := map (target raw_text) _) in Hprep.
  assert (HlX : length dataX = (length raw_text - seq_length)%nat)
    by (unfold dataX; now rewrite length_map, length_seq).
  assert (Hrows : Forall (λ row, length row = seq_length) dataX).
  { apply Forall_forall. intros row Hrow.
    apply elem_of_map in Hrow as (i & -> & Hi). apply elem_of_seq in Hi.
    apply window_length. lia. }
  destruct (to_categorical_width dataY) as (y & Hy & Hwidth).
  { intros Hnil. apply (f_equal length) in Hnil. unfold dataY in Hnil.
    rewrite length_map, length_seq in Hnil. simpl in Hnil. lia. }
  pose proof Hprep as Hloop.
  unfold prepare_patterns in Hloop. cbv zeta in Hloop.
  unfold training_script. step_keras. rewrite Hfile. step_keras.
  fold raw_text. rewrite Hloop. step_keras.
  rewrite (reshape_ok dataX Hrows). step_keras. rewrite Hy. step_keras.
  rewrite Hwidth.
  destruct (add_layer _ _ b) as [n1 b1]. step_keras.
  destruct (add_layer _ _ b1) as [n2 b2]. step_keras.
  destruct (add_layer _ _ b2) as [n3 b3]. step_keras.
  match goal with
  | |- context [fit_from ?X ?Y ?bs ?e ?r ?cb ?m (?k0, ?b0)] =>
      destruct (fit_from_spec X Y bs r e cb m k0 b0 eq_refl)
        as (m' & cb' & k' & b' & Hrun & Hl & _)
  end.
  rewrite Hrun. exists m', cb', k', b', dataX, dataY.
  split; [reflexivity |]. split; [exact Hprep |]. now rewrite Hl.
Qed.

(** X8: with the book in place and longer than one window, the model that the
    training listing builds ends in a softmax layer of [max(dataY) + 1]
    units, which is never more than [n_vocab]. *)
Theorem softmax_layer_within_vocabulary (k : kernel) (b : backend)
    (text : string) :
  disk k !! "wonderland.txt" = Some text →
  (seq_length < String.length text)%nat →
  ∃ m cb k' b' classes,
    training_script (k, b) = (inr (m, cb), (k', b'))
    ∧ layers m = [LSTM 256 (seq_length, 1%nat); Dropout 0.2;
                  Dense classes "softmax"]
    ∧ (classes ≤ length (sorted_chars (lower (list_ascii_of_string text))))%nat.
Proof.
  intros Hfile Hlong.
  destruct (softmax_layer_shape k b text Hfile Hlong)
    as (m & cb & k' & b' & dataX & dataY & Hrun & Hprep & Hl).
  exists m, cb, k', b', (S (foldr Nat.max 0%nat dataY)).
  split; [exact Hrun |]. split; [exact Hl |].
  rewrite prepare_patterns_closed in Hprep. injection Hprep as <- <-.
  apply max_below; [| apply codes_below_vocabulary].
  intros Hnil. apply (f_equal length) in Hnil.
  rewrite length_map, length_seq, lower_length, list_ascii_length in Hnil.
  simpl in Hnil. lia.
Qed.

(** *** Checkpoint names of different epochs differ *)

Lemma two_characters (s : string) :
  String.length s = 2%nat → ∃ a b, s = String a (String b EmptyString).
Proof.
  destruct s as [|a [|b [|c s]]]; simpl; try discriminate. eauto.
Qed.

Lemma fmt_02d_two_characters (e : nat) :
  (e ≤ 99)%nat → String.length (fmt_02d e) = 2%nat.
Proof.
  intros He.
  assert (Htable : forallb (λ e, bool_decide (String.length (fmt_02d e) = 2%nat))
                           (seq 0 100) = true) by (vm_compute; reflexivity).
  rewrite forallb_forall in Htable.
  eapply bool_decide_eq_true_1, Htable, in_seq. lia.
Qed.

Lemma fmt_02d_distinct (e1 e2 : nat) :
  (e1 ≤ 99)%nat → (e2 ≤ 99)%nat → fmt_02d e1 = fmt_02d e2 → e1 = e2.
Proof.
  intros He1 He2.
  assert (Htable :
    forallb (λ a, forallb (λ b, bool_decide (fmt_02d a = fmt_02d b → a = b))
                          (seq 0 100)) (seq 0 100) = true)
    by (vm_compute; reflexivity).
  rewrite forallb_forall in Htable.
  specialize (Htable e1 ltac:(apply in_seq; lia)).
  rewrite forallb_forall in Htable.
  eapply bool_decide_eq_true_1, Htable, in_seq. lia.
Qed.

Lemma checkpoint_name_distinct (e1 e2 : nat) (l1 l2 : R) :
  (e1 ≤ 99)%nat → (e2 ≤ 99)%nat → e1 ≠ e2 →
  checkpoint_name e1 l1 ≠ checkpoint_name e2 l2.
Proof.
  intros He1 He2 Hne Heq. apply Hne, fmt_02d_distinct; [lia | lia |].
  unfold checkpoint_name in Heq. apply String.app_inj in Heq.
  destruct (two_characters _ (fmt_02d_two_characters e1 He1)) as (a1 & b1 & E1).
  destruct (two_characters _ (fmt_02d_two_characters e2 He2)) as (a2 & b2 & E2).
  rewrite E1, E2 in *. simpl in Heq. now injection Heq as -> ->.
Qed.

Lemma best_after_cons (best : option R) (loss : R) (losses : list R) :
  best_after best (loss :: losses)
  = best_after (if improved loss best then Some loss else best) losses.
Proof. reflexivity. Qed.

Lemma fit_from_checkpoints (X : list (list (list R))) (y : list (list R))
    (batch_size remaining : nat) :
  ∀ (epoch : nat) (cb : ModelCheckpoint) (m : model) (k : kernel) (b : backend),
    filepath cb = checkpoint_name →
    (epoch + remaining ≤ 99)%nat →
    ∃ m' cb' k' b',
      fit_from X y batch_size epoch remaining cb m (k, b)
      = (inr (m', cb'), (k', b'))
      ∧ best cb'
        = best_after (best cb)
            (map snd (epoch_results X y batch_size remaining (net m) b))
      ∧ (∀ e n loss,
           epoch_results X y batch_size remaining (net m) b !! e = Some (n, loss) →
           disk k' !! checkpoint_name (S (epoch + e)) loss
           = if improved loss
                  (best_after (best cb)
                     (take e (map snd (epoch_results X y batch_size remaining
                                         (net m) b))))
             then Some (save_model n)
             else disk k !! checkpoint_name (S (epoch + e)) loss)
      ∧ (∀ path,
           (∀ e loss, (epoch < e ≤ epoch + remaining)%nat →
                      path ≠ checkpoint_name e loss) →
           disk k' !! path = disk k !! path).
Proof.
  induction remaining as [|remaining IH]; intros epoch cb m k b Hpath Hle.
  - exists m, cb, k, b. simpl. unfold mret, script_ret, ret.
    repeat split; auto. intros e n loss He. discriminate.
  - simpl. step_keras.
    destruct (train_epoch X y batch_size (net m) b) as [[n loss] b1].
    step_keras. rewrite Hpath. cbn [map snd].
    set (results := epoch_results X y batch_size remaining n b1).
    destruct (improved loss (best cb)) eqn:Himp; step_keras.
    + edestruct (IH (S epoch) (Checkpoint checkpoint_name (Some loss))
                   (Model (layers m) n)
                   (Kernel _ (np_random k) (stdout k) (figures k)
                      (<[checkpoint_name (epoch + 1) loss := save_model n]> (disk k)))
                   b1)
        as (m' & cb' & k' & b' & Hrun & Hbest & Hsaved & Hframe);
        [reflexivity | lia |].
      cbn [net best disk] in Hrun, Hbest, Hsaved, Hframe. fold results in Hbest, Hsaved.
      rewrite Hrun. exists m', cb', k', b'.
      split; [reflexivity |]. split; [| split].
      * rewrite best_after_cons, Himp. exact Hbest.
      * intros [|e] ne le He; simpl in He.
        -- injection He as <- <-. simpl take. unfold best_after at 1. simpl foldl.
           rewrite Himp. rewrite Nat.add_0_r.
           rewrite Hframe.
           ++ replace (S epoch) with (epoch + 1)%nat by lia.
              apply lookup_insert_eq.
           ++ intros e' l' He'. apply checkpoint_name_distinct; lia.
        -- pose proof (lookup_lt_Some _ _ _ He) as Hlt.
           assert (Hr : (length results ≤ remaining)%nat).
           { unfold results. clear. revert n b1.
             induction remaining as [|r IHr]; intros n b1; simpl; [lia |].
             destruct (train_epoch X y batch_size n b1) as [[n' l'] b'].
             simpl. specialize (IHr n' b'). lia. }
           replace (S (epoch + S e)) with (S (S epoch + e)) by lia.
           rewrite (Hsaved e ne le He). cbn [take]. rewrite best_after_cons, Himp.
           destruct (improved le _); [reflexivity |].
           apply lookup_insert_ne, checkpoint_name_distinct; lia.
      * intros path Hp. rewrite Hframe.
        -- apply lookup_insert_ne. intros Heq. apply (Hp (epoch + 1)%nat loss); [lia |].
           now symmetry.
        -- intros e' l' He'. apply Hp. lia.
    + edestruct (IH (S epoch) cb (Model (layers m) n) k b1)
        as (m' & cb' & k' & b' & Hrun & Hbest & Hsaved & Hframe);
        [exact Hpath | lia |].
      cbn [net] in Hrun, Hbest, Hsaved, Hframe. fold results in Hbest, Hsaved.
      rewrite Hrun. exists m', cb', k', b'.
      split; [reflexivity |]. split; [| split].
      * rewrite best_after_cons, Himp. exact Hbest.
      * intros [|e] ne le He; simpl in He.
        -- injection He as <- <-. simpl take. unfold best_after at 1. simpl foldl.
           rewrite Himp. rewrite Nat.add_0_r. apply Hframe.
           intros e' l' He'. apply checkpoint_name_distinct; lia.
        -- pose proof (lookup_lt_Some _ _ _ He) as Hlt.
           assert (Hr : (length results ≤ remaining)%nat).
           { unfold results. clear. revert n b1.
             induction remaining as [|r IHr]; intros n b1; simpl; [lia |].
             destruct (train_epoch X y batch_size n b1) as [[n' l'] b'].
             simpl. specialize (IHr n' b'). lia. }
           replace (S (epoch + S e)) with (S (S epoch + e)) by lia.
           rewrite (Hsaved e ne le He). cbn [take].
           now rewrite best_after_cons, Himp.
      * intros path Hp. apply Hframe. intros e' l' He'. apply Hp. lia.
Qed.

Lemma best_after_lowest (losses : list R) (best : option R) (lowest : R) :
  best_after best losses = Some lowest →
  (lowest ∈ losses ∨ best = Some lowest)
  ∧ (∀ l, l ∈ losses → lowest <= l)%R
  ∧ (∀ b, best = Some b → lowest <= b)%R.
Proof.
  revert best. induction losses as [|loss losses IH]; intros best Hbest.
  - simpl in Hbest. subst best. split; [now right |]. split.
    + intros l Hl. inversion Hl.
    + intros b Hb. injection Hb as ->. lra.
  - rewrite best_after_cons in Hbest.
    destruct (IH _ Hbest) as (Hin & Hall & Hprev).
    destruct (improved loss best) eqn:Himp.
    + assert (Hloss : (lowest <= loss)%R) by now apply Hprev.
      split; [| split].
      * left. destruct Hin as [Hin | Heq];
          [now apply list_elem_of_further | injection Heq as ->; apply list_elem_of_here].
      * intros l Hl. apply elem_of_cons in Hl as [-> | Hl]; auto.
      * intros b Hb. subst best. simpl in Himp.
        apply bool_decide_eq_true_1 in Himp. lra.
    + destruct best as [b |]; [| discriminate]. simpl in Himp.
      apply bool_decide_eq_false_1 in Himp.
      assert (Hb : (lowest <= b)%R) by now apply Hprev.
      split; [| split].
      * destruct Hin as [Hin | Heq]; [left; now apply list_elem_of_further | now right].
      * intros l Hl. apply elem_of_cons in Hl as [-> | Hl]; [lra | auto].
      * intros b' Hb'. injection Hb' as <-. exact Hb.
Qed.

(** X11: what [fit] with the notebook's callback leaves behind, for up to 99
    epochs: the callback's best loss is the lowest loss of all epochs; an
    epoch whose loss is below every earlier one leaves the model of that
    epoch under its own checkpoint name, any other epoch leaves its name as
    it was; and no path other than the checkpoint names of these epochs is
    touched.  In particular the model with the lowest loss is on disk. *)
Theorem checkpoints_mark_the_improvements
    (X : list (list (list R))) (y : list (list R)) (epochs batch_size : nat)
    (m : model) (k : kernel) (b : backend) :
  (epochs ≤ 99)%nat →
  let results := epoch_results X y batch_size epochs (net m) b in
  let losses := map snd results in
  ∃ m' cb' k' b',
    fit X y epochs batch_size (Checkpoint checkpoint_name None) m (k, b)
    = (inr (m', cb'), (k', b'))
    ∧ best cb' = best_after None losses
    ∧ (∀ lowest, best cb' = Some lowest →
         lowest ∈ losses ∧ ∀ l, l ∈ losses → (lowest <= l)%R)
    ∧ (∀ e n loss, results !! e = Some (n, loss) →
         disk k' !! checkpoint_name (S e) loss
         = if improved loss (best_after None (take e losses))
           then Some (save_model n)
           else disk k !! checkpoint_name (S e) loss)
    ∧ (∀ path,
         (∀ e loss, (1 ≤ e ≤ epochs)%nat → path ≠ checkpoint_name e loss) →
         disk k' !! path = disk k !! path).
Proof.
  intros Hepochs results losses. unfold fit.
  destruct (fit_from_checkpoints X y batch_size epochs 0
              (Checkpoint checkpoint_name None) m k b eq_refl)
    as (m' & cb' & k' & b' & Hrun & Hbest & Hsaved & Hframe); [lia |].
  cbn [best] in Hbest, Hsaved. fold results in Hbest, Hsaved.
  fold losses in Hbest, Hsaved.
  exists m', cb', k', b'. split; [exact Hrun |]. split; [exact Hbest |].
  split; [| split].
  - intros lowest Hlow. rewrite Hbest in Hlow.
    destruct (best_after_lowest losses None lowest Hlow) as ([Hin | Hno] & Hall & _);
      [auto | discriminate].
  - intros e n loss He. exact (Hsaved e n loss He).
  - intros path Hp. apply Hframe. intros e loss He. apply Hp. lia.
Qed.

End checkpoint_facts.

(** ** The generation loop *)

Ltac step_generation :=
  cbv beta iota delta
    [mbind mret script_bind script_ret bind ret call modify
     keras.py keras.add keras.compile keras.Sequential
     python.read_file python.write_file python.print
     generation_listing.write generation_listing.model_load_weights];
  cbn [python.np_random python.stdout python.figures python.disk
       keras.layers keras.net fst snd].

Section generation_facts.
Context `{NumpyRandom} `{Formatting} `{Keras} `{!KerasInference}.
Local Open Scope nat_scope.
Import python keras text_generation_notebook text_generation_data
       generation_listing.

Lemma argmax_from_bound (a : list R) (best_at at_ : nat) (best : R) :
  best_at < at_ → argmax_from best_at best at_ a < at_ + length a.
Proof.
  revert best_at at_ best. induction a as [|v a IH]; intros best_at at_ best Hlt;
    simpl; [lia |].
  case_decide.
  - specialize (IH at_ (S at_) v). lia.
  - specialize (IH best_at (S at_) best). lia.
Qed.

Lemma argmax_in_range (a : list R) :
  a ≠ [] → ∃ i, argmax a = inr i ∧ i < length a.
Proof.
  destruct a as [|v a]; [congruence |]. intros _. eexists. split; [reflexivity |].
  pose proof (argmax_from_bound a 0 1 v). simpl. lia.
Qed.

Lemma lookup_int_total (chars : list ascii) (i : nat) :
  i < length chars →
  ∃ c, chars !! i = Some c ∧ lookup_int (int_to_char_of chars) i = inr c.
Proof.
  intros Hi. destruct (lookup_lt_is_Some_2 chars i Hi) as [c Hc].
  exists c. split; [exact Hc |].
  unfold lookup_int. now rewrite int_to_char_lookup, Hc.
Qed.

Lemma mapM_lookup_int (chars : list ascii) (l : list nat) :
  Forall (λ i, i < length chars) l →
  ∃ cs, mapM (lookup_int (int_to_char_of chars)) l = inr cs.
Proof.
  induction 1 as [|i l Hi _ [cs Hcs]]; simpl; [eauto |].
  destruct (lookup_int_total chars i Hi) as (c & _ & Hc).
  rewrite Hc. unfold mbind at 1, outcome_bind at 1. rewrite Hcs. simpl. eauto.
Qed.

Lemma value_append (v : variables) (index : nat) :
  bound v → value (append index v) = value v ++ [index].
Proof.
  unfold bound, value, append. destruct (pattern v) as [i | l]; simpl; [| reflexivity].
  intros Hi. destruct (lookup_lt_is_Some_2 (dataX v) i Hi) as [row Hrow].
  now rewrite list_lookup_alter_eq, Hrow.
Qed.

Lemma value_drop_first (v : variables) :
  value (drop_first v) = drop 1 (value v).
Proof.
  unfold drop_first, value at 1. simpl. apply take_ge.
  rewrite length_drop. lia.
Qed.

Lemma generate_step_spec (chars : list ascii) (m : model) (v : variables)
    (k : kernel) :
  bound v →
  Forall (λ i, i < length chars) (value v) →
  (∀ x, predict (net m) x ≠ [] ∧ length (predict (net m) x) ≤ length chars) →
  ∃ index,
    index < length chars
    ∧ generate_step (int_to_char_of chars) (length chars) m v k
      = (inr (drop_first (append index v)),
         Kernel _ (np_random k) (stdout k ++ [written chars index])
           (figures k) (disk k)).
Proof.
  intros Hbound Hcodes Hpredict. unfold generate_step. cbv zeta.
  match goal with |- context [predict (net m) ?x] =>
    destruct (Hpredict x) as [Hne Hlen];
    destruct (argmax_in_range (predict (net m) x) Hne) as (index & Hindex & Hlt);
    rewrite Hindex
  end.
  assert (Hi : index < length chars) by lia.
  destruct (lookup_int_total chars index Hi) as (c & Hc & Hlook).
  destruct (mapM_lookup_int chars (value v) Hcodes) as [cs Hcs].
  exists index. split; [exact Hi |].
  step_generation. rewrite Hlook. step_generation. rewrite Hcs. step_generation.
  unfold written. now rewrite Hc.
Qed.

Lemma generate_spec (chars : list ascii) (m : model) (steps : nat) :
  ∀ (v : variables) (k : kernel),
    bound v →
    Forall (λ i, i < length chars) (value v) →
    (∀ x, predict (net m) x ≠ [] ∧ length (predict (net m) x) ≤ length chars) →
    ∃ v' generated,
      generate steps (int_to_char_of chars) (length chars) m v k
      = (inr v',
         Kernel _ (np_random k) (stdout k ++ map (written chars) generated)
           (figures k) (disk k))
      ∧ length generated = steps
      ∧ Forall (λ i, i < length chars) generated
      ∧ value v' = drop steps (value v ++ generated)
      ∧ dataX v'
        = match generated, pattern v with
          | index :: _, Row i => alter (λ row, row ++ [index]) i (dataX v)
          | _, _ => dataX v
          end.
Proof.
  induction steps as [|steps IH]; intros v k Hbound Hcodes Hpredict.
  - exists v, []. simpl. unfold mret, script_ret, ret.
    rewrite !app_nil_r. destruct k. repeat split; auto.
  - destruct (generate_step_spec chars m v k Hbound Hcodes Hpredict)
      as (index & Hindex & Hstep).
    simpl. unfold mbind at 1, script_bind at 1, bind at 1. rewrite Hstep.
    set (v1 := drop_first (append index v)).
    assert (Hv1 : value v1 = drop 1 (value v ++ [index]))
      by (unfold v1; now rewrite value_drop_first, value_append).
    edestruct (IH v1) as (v' & generated & Hrun & Hlen & Hall & Hval & HdataX).
    + exact I.
    + rewrite Hv1. apply Forall_drop, Forall_app. split; [exact Hcodes |].
      now repeat constructor.
    + exact Hpredict.
    + exists v', (index :: generated). rewrite Hrun.
      cbn [np_random stdout figures disk map].
      rewrite <- app_assoc. split; [reflexivity |].
      split; [simpl; now rewrite Hlen |].
      split; [now constructor |]. split.
      * rewrite Hval, Hv1.
        destruct (value v ++ [index]) as [|a l] eqn:Hl.
        { destruct (value v); discriminate. }
        replace (value v ++ index :: generated) with ((a :: l) ++ generated)
          by (rewrite <- Hl, <- app_assoc; reflexivity).
        reflexivity.
      * rewrite HdataX. unfold v1, drop_first, append.
        destruct (pattern v); destruct generated; reflexivity.
Qed.

(** X12: the generation loop keeps a window of constant length: under the
    contract that a prediction has at least one and at most [n_vocab]
    entries, every iteration succeeds (no [KeyError], no [ValueError]),
    writes one character of the vocabulary, and after any number of
    iterations [pattern] holds the last codes of the seed followed by the
    generated ones, as many as the seed had; the disk and the generator are
    not touched. *)
Theorem generation_slides_the_window (chars : list ascii) (m : model)
    (steps : nat) (v : variables) (k : kernel) :
  bound v →
  Forall (λ i, i < length chars) (value v) →
  (∀ x, predict (net m) x ≠ [] ∧ length (predict (net m) x) ≤ length chars) →
  ∃ v' k' generated,
    generate steps (int_to_char_of chars) (length chars) m v k = (inr v', k')
    ∧ length generated = steps
    ∧ Forall (λ i, i < length chars) generated
    ∧ value v' = drop steps (value v ++ generated)
    ∧ length (value v') = length (value v)
    ∧ stdout k' = stdout k ++ map (written chars) generated
    ∧ disk k' = disk k
    ∧ np_random k' = np_random k.
Proof.
  intros Hbound Hcodes Hpredict.
  destruct (generate_spec chars m steps v k Hbound Hcodes Hpredict)
    as (v' & generated & Hrun & Hlen & Hall & Hval & _).
  eexists v', _, generated. split; [exact Hrun |].
  repeat split; auto.
  rewrite Hval, length_drop, length_app. lia.
Qed.

(** X13: the first [pattern.append(index)] of the loop reaches into [dataX]:
    [pattern] is still bound to the row [dataX[start]], so after generating
    at least one character that row is one code longer, by the first
    generated code; every other row is unchanged. *)
Theorem generation_extends_the_seed_row (chars : list ascii) (m : model)
    (steps start : nat) (rows : list (list nat)) (row : list nat) (k : kernel) :
  rows !! start = Some row →
  0 < steps →
  Forall (λ i, i < length chars) row →
  (∀ x, predict (net m) x ≠ [] ∧ length (predict (net m) x) ≤ length chars) →
  ∃ v' k' index,
    generate steps (int_to_char_of chars) (length chars) m
      (Variables rows (Row start)) k = (inr v', k')
    ∧ dataX v' !! start = Some (row ++ [index])
    ∧ (∀ j, j ≠ start → dataX v' !! j = rows !! j)
    ∧ length (dataX v') = length rows.
Proof.
  intros Hrow Hsteps Hcodes Hpredict.
  destruct (generate_spec chars m steps (Variables rows (Row start)) k)
    as (v' & generated & Hrun & Hlen & _ & _ & HdataX).
  - simpl. eapply lookup_lt_Some, Hrow.
  - unfold value. simpl. now rewrite Hrow.
  - exact Hpredict.
  - destruct generated as [|index generated]; [simpl in Hlen; lia |].
    simpl in HdataX. eexists v', _, index. split; [exact Hrun |].
    rewrite HdataX. split; [| split].
    + now rewrite list_lookup_alter_eq, Hrow.
    + intros j Hj. now apply list_lookup_alter_ne.
    + apply length_alter.
Qed.


(** X15: the generation listing loads its weights from a name that records the
    loss of one particular run.  With the book in place but no file of that
    name, it prints its three totals and stops in [load_weights] with an
    IOError: no seed is picked, nothing is generated, the disk is as
    before. *)
Theorem generation_without_the_checkpoint (k : kernel) (b : backend)
    (text : string) :
  disk k !! "wonderland.txt" = Some text →
  seq_length < String.length text →
  disk k !! "weights-improvement-20-2.0518.hdf5" = None →
  ∃ k' b',
    generation_script (k, b) = (inl (IOError "h5py.File"), (k', b'))
    ∧ disk k' = disk k
    ∧ np_random k' = np_random k
    ∧ stdout k'
      = stdout k
        ++ ["Total Characters:  " +:+ pretty (String.length text);
            "Total Vocab:  "
              +:+ pretty (length (sorted_chars (lower (list_ascii_of_string text))));
            "Total Patterns:  " +:+ pretty (String.length text - seq_length)].
Proof.
  intros Hfile Hlong Hweights.
  set (raw_text := lower (list_ascii_of_string text)).
  assert (Hlen : length raw_text = String.length text)
    by (unfold raw_text; now rewrite lower_length, list_ascii_length).
  pose proof (prepare_patterns_closed raw_text) as Hprep.
  set (rows := map (window raw_text) _) in Hprep.
  set (targets := map (target raw_text) _) in Hprep.
  assert (HlX : length rows = String.length text - seq_length)
    by (unfold rows; now rewrite length_map, length_seq, Hlen).
  assert (Hrows : Forall (λ row, length row = seq_length) rows).
  { apply Forall_forall. intros row Hrow.
    apply elem_of_map in Hrow as (i & -> & Hi). apply elem_of_seq in Hi.
    apply window_length. lia. }
  destruct (to_categorical_width targets) as (y & Hy & _).
  { intros Hnil. apply (f_equal length) in Hnil. unfold targets in Hnil.
    rewrite length_map, length_seq in Hnil. simpl in Hnil. lia. }
  unfold prepare_patterns in Hprep. cbv zeta in Hprep.
  unfold generation_script. step_generation. rewrite Hfile. step_generation.
  fold raw_text. rewrite Hprep. step_generation.
  rewrite (reshape_ok rows Hrows). step_generation. rewrite Hy. step_generation.
  destruct (add_layer _ _ b) as [n1 b1]. step_generation.
  destruct (add_layer _ _ b1) as [n2 b2]. step_generation.
  destruct (add_layer _ _ b2) as [n3 b3]. step_generation.
  rewrite Hweights. eexists _, _. split; [reflexivity |]. cbn.
  rewrite Hlen, HlX, <- !app_assoc. repeat split.
Qed.

End generation_facts.

(** ** The complete examples of the rank-correlation notebook, run *)

Section example_runs.
Context `{NumpyRandom} `{Formatting} `{SciPyStats}.
Local Open Scope R_scope.
Import python rank_correlation_notebook.

Lemma seeded_lengths :
  length seeded_dataset.data1 = 1000%nat
  ∧ length seeded_dataset.data2 = 1000%nat
  ∧ numpy.add seeded_dataset.data1
      (numpy.scale (fst seeded_dataset.second_draws) 10)
    = inr seeded_dataset.data2.
Proof.
  assert (Hd1 : length seeded_dataset.data1 = 1000%nat)
    by (unfold seeded_dataset.data1; rewrite scale_length; apply draw_length).
  assert (Hd2 : length (numpy.scale (fst seeded_dataset.second_draws) 10)
                = 1000%nat)
    by (rewrite scale_length; apply draw_length).
  split; [exact Hd1 |]. split.
  - unfold seeded_dataset.data2. rewrite length_zip_with. lia.
  - apply add_equal_length. congruence.
Qed.

Lemma scatter_example_run (k : kernel) :
  scatter_example k
  = (inr (seeded_dataset.data1, seeded_dataset.data2),
     Kernel _ (snd seeded_dataset.second_draws) (stdout k)
       (figures k ++ [(seeded_dataset.data1, seeded_dataset.data2)]) (disk k)).
Proof.
  destruct seeded_lengths as (_ & _ & Hadd). revert Hadd.
  unfold seeded_dataset.data2, seeded_dataset.data1,
    seeded_dataset.second_draws, seeded_dataset.first_draws.
  unfold scatter_example. step_script.
  destruct (draw 1000 (seed_state 1)) as [r1 g1]. step_script.
  destruct (draw 1000 g1) as [r2 g2]. step_script.
  intros ->. reflexivity.
Qed.

Lemma spearman_example_run (k : kernel) :
  let coef := formulas.pearson_r (scipy_stats.rankdata seeded_dataset.data1)
                                 (scipy_stats.rankdata seeded_dataset.data2) in
  let p := spearman_prob coef 1000 in
  spearman_example k
  = (inr (Globals seeded_dataset.data1 seeded_dataset.data2 coef p),
     Kernel _ (snd seeded_dataset.second_draws)
       (stdout k ++ ["Spearmans correlation coefficient: " +:+ fmt_f 3 coef;
                     seeded_dataset.verdict p])
       (figures k) (disk k)).
Proof.
  destruct seeded_lengths as (Hl1 & Hl2 & Hadd).
  pose proof (spearmanr_equal_length seeded_dataset.data1 seeded_dataset.data2
                (eq_trans Hl1 (eq_sym Hl2))) as Hsp.
  rewrite Hl1 in Hsp. revert Hadd Hsp.
  unfold seeded_dataset.verdict, seeded_dataset.data2, seeded_dataset.data1,
    seeded_dataset.second_draws, seeded_dataset.first_draws.
  unfold spearman_example, interpret. step_script.
  destruct (draw 1000 (seed_state 1)) as [r1 g1]. step_script.
  destruct (draw 1000 g1) as [r2 g2]. step_script.
  intros -> ->. step_script.
  destruct (decide _); step_script; now rewrite <- app_assoc.
Qed.

Lemma kendall_example_run (k : kernel) :
  let result := kendall_statistic seeded_dataset.data1 seeded_dataset.data2 in
  kendall_example k
  = (inr (Globals seeded_dataset.data1 seeded_dataset.data2 result.1 result.2),
     Kernel _ (snd seeded_dataset.second_draws)
       (stdout k ++ ["Kendall correlation coefficient: " +:+ fmt_f 3 result.1;
                     seeded_dataset.verdict result.2])
       (figures k) (disk k)).
Proof.
  destruct seeded_lengths as (Hl1 & Hl2 & Hadd). revert Hadd Hl1 Hl2.
  unfold seeded_dataset.verdict, seeded_dataset.data2, seeded_dataset.data1,
    seeded_dataset.second_draws, seeded_dataset.first_draws.
  unfold kendall_example, interpret. step_script.
  destruct (draw 1000 (seed_state 1)) as [r1 g1]. step_script.
  destruct (draw 1000 g1) as [r2 g2]. step_script.
  intros -> Hl1 Hl2. unfold scipy_stats.kendalltau.
  rewrite decide_True by exact (eq_trans Hl1 (eq_sym Hl2)).
  destruct (kendall_statistic _ _) as [tau pv]. step_script.
  destruct (decide _); step_script; now rewrite <- app_assoc.
Qed.

(** X16: the complete examples cannot fail with a shape error, whatever the
    libraries draw or compute: both samples always have 1000 values, so the
    addition, [spearmanr] and [kendalltau] accept them.  The scatter example
    adds one figure and prints nothing; the other two print exactly two
    lines, the coefficient and the verdict on [p], and plot nothing. *)
Theorem complete_examples_run_to_completion (k : kernel) :
  (∃ d1 d2 k',
     scatter_example k = (inr (d1, d2), k')
     ∧ length d1 = 1000%nat ∧ length d2 = 1000%nat
     ∧ figures k' = figures k ++ [(d1, d2)] ∧ stdout k' = stdout k)
  ∧ (∃ g k',
       spearman_example k = (inr g, k')
       ∧ length (data1 g) = 1000%nat ∧ length (data2 g) = 1000%nat
       ∧ stdout k'
         = stdout k ++ ["Spearmans correlation coefficient: " +:+ fmt_f 3 (coef g);
                        seeded_dataset.verdict (p g)]
       ∧ figures k' = figures k)
  ∧ (∃ g k',
       kendall_example k = (inr g, k')
       ∧ length (data1 g) = 1000%nat ∧ length (data2 g) = 1000%nat
       ∧ stdout k'
         = stdout k ++ ["Kendall correlation coefficient: " +:+ fmt_f 3 (coef g);
                        seeded_dataset.verdict (p g)]
       ∧ figures k' = figures k).
Proof.
  destruct seeded_lengths as (Hl1 & Hl2 & _).
  split; [| split].
  - eexists _, _, _. split; [apply scatter_example_run |]. now repeat split.
  - eexists _, _. split; [apply spearman_example_run |]. now repeat split.
  - eexists _, _. split; [apply kendall_example_run |]. now repeat split.
Qed.

(** X17: the three complete examples work on one and the same dataset, from
    whatever kernel state each is run: the points that the scatter example
    plots are the samples that the Spearman and the Kendall example
    analyse. *)
Theorem examples_share_the_dataset (k1 k2 k3 : kernel) :
  ∃ d1 d2 plotted analysed_s analysed_k,
    scatter_example k1 = (inr (d1, d2), plotted)
    ∧ figures plotted = figures k1 ++ [(d1, d2)]
    ∧ fst (spearman_example k2) = inr analysed_s
    ∧ fst (kendall_example k3) = inr analysed_k
    ∧ data1 analysed_s = d1 ∧ data2 analysed_s = d2
    ∧ data1 analysed_k = d1 ∧ data2 analysed_k = d2.
Proof.
  eexists _, _, _, _, _. rewrite scatter_example_run, spearman_example_run,
    kendall_example_run. cbn. repeat split.
Qed.

End example_runs.

(** ** Correlation as the notebooks describe it *)

Section correlation_extra.
Local Open Scope R_scope.








End correlation_extra.

(** ** Recipe 3 when reading back fails *)

Section recipe_edges.
Context `{RLibrary}.
Import r_session finalize_recipes.

(** X20: recipe 3 reads the file it has just written, so it never fails for a
    missing file, whatever the disk held before.  It either completes, or,
    when R cannot rebuild a model from the saved bytes, stops at [readRDS]:
    then nothing has been printed, but the file is on disk, the four
    packages are attached and the eight-worker backend is registered. *)
Theorem save_and_load_outcomes (s : session) :
  match unserialize (serialize (fst sonar_forest)) with
  | Some loaded =>
      ∃ env s', save_and_load s = (inr env, s')
                ∧ final_model env = fst sonar_forest
                ∧ super_model env = loaded
  | None =>
      ∃ s', save_and_load s = (inl (simpleError "readRDS"), s')
            ∧ console s' = console s
            ∧ files s' = <["./final_model.rds" := serialize (fst sonar_forest)]> (files s)
            ∧ workers s' = Some 8%nat
            ∧ attached s'
              = attached s ++ ["caret"; "mlbench"; "randomForest"; "doMC"]
  end.
Proof.
  unfold save_and_load, sonar_forest, sonar_index. step_recipe.
  destruct (createDataPartition _ _ _) as [idx g1]. step_recipe.
  destruct (randomForest _ _ _ _ _) as [fm g2]. step_recipe.
  rewrite lookup_insert_eq.
  destruct (unserialize (serialize fm)) as [sm |]; step_recipe.
  - destruct (predict_forest _ _ _) as [preds g3]. step_recipe.
    eexists _, _. split; [reflexivity |]. split; reflexivity.
  - eexists. split; [reflexivity |]. cbn.
    rewrite <- !app_assoc. repeat split.
Qed.

End recipe_edges.

(** ** The further theorems at concrete inputs *)

Section more_concrete_runs.
Import sample_runtime sample_inputs.
#[local] Existing Instance counting_random.
#[local] Existing Instance plain_formatting.
#[local] Existing Instance flat_stats.
#[local] Existing Instance epoch_counter.
#[local] Existing Instance one_class.
Import python keras text_generation_notebook text_generation_data
       generation_listing.

Lemma softmax_layer_within_vocabulary_witness :
  disk kernel_with_book !! "wonderland.txt" = Some book_opening
  ∧ (seq_length < String.length book_opening)%nat
  ∧ ∃ m cb k' b' classes,
      training_script (kernel_with_book, tt) = (inr (m, cb), (k', b'))
      ∧ layers m = [LSTM 256 (seq_length, 1%nat); Dropout 0.2;
                    Dense classes "softmax"]
      ∧ (classes
         ≤ length (sorted_chars (lower (list_ascii_of_string book_opening))))%nat.
Proof.
  assert (Hfile : disk kernel_with_book !! "wonderland.txt" = Some book_opening)
    by reflexivity.
  assert (Hlong : (seq_length < String.length book_opening)%nat)
    by (vm_compute; lia).
  split; [exact Hfile |]. split; [exact Hlong |].
  exact (softmax_layer_within_vocabulary kernel_with_book tt book_opening
           Hfile Hlong).
Defined.

Lemma training_without_the_book_witness :
  disk fresh_kernel !! "wonderland.txt" = None
  ∧ training_script (fresh_kernel, tt)
    = (inl (IOError "open"), (fresh_kernel, tt)).
Proof.
  assert (Hfile : disk fresh_kernel !! "wonderland.txt" = None) by reflexivity.
  split; [exact Hfile |].
  exact (training_without_the_book fresh_kernel tt Hfile).
Defined.

Lemma training_on_a_short_book_witness :
  disk kernel_with_title !! "wonderland.txt"
    = Some "ALICE'S ADVENTURES IN WONDERLAND"
  ∧ (String.length "ALICE'S ADVENTURES IN WONDERLAND" ≤ seq_length)%nat
  ∧ ∃ k',
      training_script (kernel_with_title, tt)
      = (inl (ValueError "numpy.max"), (k', tt))
      ∧ disk k' = disk kernel_with_title.
Proof.
  assert (Hfile : disk kernel_with_title !! "wonderland.txt"
                  = Some "ALICE'S ADVENTURES IN WONDERLAND") by reflexivity.
  assert (Hshort : (String.length "ALICE'S ADVENTURES IN WONDERLAND"
                    ≤ seq_length)%nat) by (vm_compute; lia).
  split; [exact Hfile |]. split; [exact Hshort |].
  destruct (@training_on_a_short_book _ _ epoch_counter kernel_with_title tt
              "ALICE'S ADVENTURES IN WONDERLAND" Hfile Hshort)
    as (k' & Hrun & Hdisk & _).
  exists k'. split; assumption.
Defined.

Lemma checkpoints_mark_the_improvements_witness :
  (20 ≤ 99)%nat
  ∧ ∃ m' cb' k' b',
      fit [] [] 20 128 (Checkpoint checkpoint_name None) Sequential
        (fresh_kernel, tt)
      = (inr (m', cb'), (k', b'))
      ∧ best cb'
        = training_history.best_after None
            (map snd (training_history.epoch_results [] [] 128 20
                        (net Sequential) tt)).
Proof.
  assert (Hepochs : (20 ≤ 99)%nat) by lia.
  split; [exact Hepochs |].
  destruct (@checkpoints_mark_the_improvements _ _ epoch_counter
              [] [] 20 128 Sequential fresh_kernel tt Hepochs)
    as (m' & cb' & k' & b' & Hrun & Hbest & _).
  exists m', cb', k', b'. split; assumption.
Defined.

Lemma one_class_predictions (n : network) (x : list (list (list R))) :
  predict n x ≠ [] ∧ (length (predict n x) ≤ length ["a"%char; "b"%char])%nat.
Proof. split; [discriminate | simpl; lia]. Qed.

Lemma generation_slides_the_window_witness :
  bound (Variables [[0; 1; 0]%nat] (Row 0))
  ∧ Forall (λ i, (i < length ["a"%char; "b"%char])%nat)
           (value (Variables [[0; 1; 0]%nat] (Row 0)))
  ∧ (∀ x, predict (net Sequential) x ≠ []
          ∧ (length (predict (net Sequential) x)
             ≤ length ["a"%char; "b"%char])%nat)
  ∧ ∃ v' k' (generated : list nat),
      generate 5 (int_to_char_of ["a"%char; "b"%char]) 2 Sequential
        (Variables [[0; 1; 0]%nat] (Row 0)) fresh_kernel = (inr v', k')
      ∧ length generated = 5%nat
      ∧ length (value v') = 3%nat.
Proof.
  assert (Hbound : bound (Variables [[0; 1; 0]%nat] (Row 0)))
    by (unfold bound; simpl; lia).
  assert (Hcodes : Forall (λ i, (i < length ["a"%char; "b"%char])%nat)
                          (value (Variables [[0; 1; 0]%nat] (Row 0))))
    by (repeat constructor).
  split; [exact Hbound |]. split; [exact Hcodes |].
  split; [exact (one_class_predictions (net Sequential)) |].
  destruct (generation_slides_the_window ["a"%char; "b"%char] Sequential 5
              (Variables [[0; 1; 0]%nat] (Row 0)) fresh_kernel Hbound Hcodes
              (one_class_predictions (net Sequential)))
    as (v' & k' & generated & Hrun & Hlen & _ & _ & Hwindow & _).
  exists v', k', generated. repeat split; assumption.
Defined.

Lemma generation_extends_the_seed_row_witness :
  [[0; 1; 0]%nat] !! 0%nat = Some [0; 1; 0]%nat
  ∧ (0 < 5)%nat
  ∧ Forall (λ i, (i < length ["a"%char; "b"%char])%nat) [0; 1; 0]%nat
  ∧ ∃ v' k' index,
      generate 5 (int_to_char_of ["a"%char; "b"%char]) 2 Sequential
        (Variables [[0; 1; 0]%nat] (Row 0)) fresh_kernel = (inr v', k')
      ∧ dataX v' !! 0%nat = Some ([0; 1; 0]%nat ++ [index]).
Proof.
  assert (Hrow : [[0; 1; 0]%nat] !! 0%nat = Some [0; 1; 0]%nat) by reflexivity.
  assert (Hsteps : (0 < 5)%nat) by lia.
  assert (Hcodes : Forall (λ i, (i < length ["a"%char; "b"%char])%nat)
                          [0; 1; 0]%nat) by (repeat constructor).
  split; [exact Hrow |]. split; [exact Hsteps |]. split; [exact Hcodes |].
  destruct (generation_extends_the_seed_row ["a"%char; "b"%char] Sequential 5 0
              [[0; 1; 0]%nat] [0; 1; 0]%nat fresh_kernel Hrow Hsteps Hcodes
              (one_class_predictions (net Sequential)))
    as (v' & k' & index & Hrun & Hgrown & _).
  exists v', k', index. split; assumption.
Defined.



Lemma generation_without_the_checkpoint_witness :
  disk kernel_with_book !! "wonderland.txt" = Some book_opening
  ∧ (seq_length < String.length book_opening)%nat
  ∧ disk kernel_with_book !! "weights-improvement-20-2.0518.hdf5" = None
  ∧ ∃ k' b',
      generation_script (kernel_with_book, tt)
      = (inl (IOError "h5py.File"), (k', b'))
      ∧ disk k' = disk kernel_with_book.
Proof.
  assert (Hfile : disk kernel_with_book !! "wonderland.txt" = Some book_opening)
    by reflexivity.
  assert (Hlong : (seq_length < String.length book_opening)%nat)
    by (vm_compute; lia).
  assert (Hweights : disk kernel_with_book
                       !! "weights-improvement-20-2.0518.hdf5" = None)
    by reflexivity.
  split; [exact Hfile |]. split; [exact Hlong |]. split; [exact Hweights |].
  destruct (@generation_without_the_checkpoint counting_random epoch_counter one_class
              kernel_with_book tt book_opening Hfile Hlong Hweights) as (k' & b' & Hrun & Hdisk & _).
  exists k', b'. split; assumption.
Defined.

Local Open Scope R_scope.




End more_concrete_runs.
